(** * Daylight-coefficient grid-based recipe (honeybee.radiance.recipe.daylightcoeff.gridbased)

    A shallow embedding of [DaylightCoeffGridBased]: the simulation-type
    setter, [totalRunsCount], [write] and [results], together with the
    Python string and path primitives they use.

    Conventions.
    - Python integers are [Z]; Python [str] is [string]; Python lists are
      [list].
    - A method that mutates [self], prints or touches the disk is a
      computation in the monad [M], which threads a [World] and can raise
      a Python exception; the state reached before a raise is kept, as in
      Python.
    - [os.path] is [posixpath]. *)

From Stdlib Require Import ZArith List String Ascii Bool Lia Arith.
From Stdlib Require Import DecimalString DecimalZ DecimalPos Permutation.
Import ListNotations.

Local Open Scope string_scope.
Local Open Scope list_scope.

(** ** Python exceptions raised on the modelled paths *)

Inductive exn : Type :=
| AssertionError (msg : string)
| IndexError (msg : string)
| TypeError (msg : string)
| IOError (msg : string)
| OtherError (cls msg : string).

(** ** Python string and list primitives *)

Module Py.

(** [s.startswith(p)] *)
Definition startswith (s p : string) : bool := String.prefix p s.

(** [s.endswith(p)] for a one-character [p] *)
Fixpoint endswith_char (s : string) (c : ascii) : bool :=
  match s with
  | EmptyString => false
  | String a EmptyString => Ascii.eqb a c
  | String _ s' => endswith_char s' c
  end.

(** [s[:n]] for [n >= 0] *)
Definition take (n : nat) (s : string) : string := String.substring 0 n s.

(** [s[:-n]] for [n > 0]: everything but the last [n] characters, the
    empty string when [s] is shorter than [n]. *)
Definition drop_last (n : nat) (s : string) : string :=
  take (String.length s - n) s.

(** [s.split(sep)] for a non-empty [sep]: cut at the leftmost occurrence
    of [sep], continue after it.  [cur] is the segment being read and
    [skip] counts the characters of a matched separator still to pass.
    (Python raises ValueError for an empty separator; the recipe only
    splits on a two-character literal.) *)
Fixpoint split_go (sep s cur : string) (skip : nat) : list string :=
  match s with
  | EmptyString => [cur]
  | String c s' =>
      match skip with
      | S k => split_go sep s' cur k
      | O =>
          if String.prefix sep s
          then cur :: split_go sep s' EmptyString (String.length sep - 1)
          else split_go sep s' (cur ++ String c EmptyString)%string O
      end
  end.

Definition split (s sep : string) : list string :=
  split_go sep s EmptyString O.

(** [sep.join(l)] *)
Definition join (sep : string) (l : list string) : string :=
  String.concat sep l.

(** [l[-k]] for [k > 0] *)
Definition index_neg {A : Type} (l : list A) (k : nat) : exn + A :=
  if Nat.leb k (List.length l)
  then match nth_error l (List.length l - k) with
       | Some x => inr x
       | None => inl (IndexError "list index out of range")
       end
  else inl (IndexError "list index out of range").

(** [l[i]] for [i >= 0] *)
Definition index {A : Type} (l : list A) (i : nat) : exn + A :=
  match nth_error l i with
  | Some x => inr x
  | None => inl (IndexError "list index out of range")
  end.

(** [str(n)] / ["{}".format(n)] for an integer *)
Definition str_of_int (n : Z) : string :=
  NilZero.string_of_int (Z.to_int n).

(** [sum(l)]: left-to-right from 0 *)
Definition sum (l : list Z) : Z := fold_left Z.add l 0%Z.

End Py.

(** ** [os.path] (posixpath) *)

Module OsPath.

Definition sep : ascii := "/"%char.

(** The part of [p] after its last slash, read left to right: [cur] is
    what has been read since the last slash. *)
Fixpoint tail_go (p cur : string) : string :=
  match p with
  | EmptyString => cur
  | String c p' =>
      if Ascii.eqb c sep then tail_go p' EmptyString
      else tail_go p' (cur ++ String c EmptyString)%string
  end.

(** [os.path.split(p)[-1]], that is [p[p.rfind('/') + 1:]] *)
Definition split_tail (p : string) : string := tail_go p EmptyString.

(** [os.path.join(a, b)] *)
Definition join (a b : string) : string :=
  if Py.startswith b (String sep EmptyString) then b
  else if orb (String.eqb a EmptyString) (Py.endswith_char a sep)
       then (a ++ b)%string
       else (a ++ String sep b)%string.

End OsPath.

(** ** Data model *)

(** The sky matrix: the attributes of [SkyMatrix] the recipe reads or
    writes. *)
Record SkyMatrix : Type := mkSkyMatrix {
  isClimateBased : bool;
  isPointInTime : bool;
  skyType : Z;
  skyDensity : Z;
  hoys : list Z
}.

Definition set_skyType (v : Z) (s : SkyMatrix) : SkyMatrix :=
  mkSkyMatrix (isClimateBased s) (isPointInTime s) v (skyDensity s) (hoys s).

Record WindowGroup : Type := mkWindowGroup {
  wg_name : string;
  stateCount : Z
}.

(** One loaded block of results of a grid: the rows (one text line per
    point) read for a (source, state) pair, with the time steps they are
    for. *)
Record ResultEntry : Type := mkResultEntry {
  re_source : string;
  re_state : string;
  re_hoys : list Z;
  re_rows : list string
}.

(** A test point as the points file gives it: three coordinates. *)
Definition Point : Type := (string * string * string)%type.

Record AnalysisGrid : Type := mkAnalysisGrid {
  grid_name : string;
  points : list Point;
  loaded : list ResultEntry
}.

(** [len(analysisGrid)] *)
Definition grid_len (g : AnalysisGrid) : Z := Z.of_nat (List.length (points g)).

(** The knobs [radianceParameters] sets on a fresh [RfluxmtxParameters];
    the decimal literals are kept as written. *)
Record RfluxmtxParameters : Type := mkRfluxmtxParameters {
  irradianceCalc : bool;
  ambientAccuracy : string;
  ambientDivisions : Z;
  ambientBounces : Z;
  limitWeight : string
}.

(** The recipe object.  The first four fields are set by this class; the
    others are the state of its base classes that this class reads and
    writes ([windowGroups] is a property of the base class, kept here as
    the list it returns). *)
Record Recipe : Type := mkRecipe {
  _skyMatrix : SkyMatrix;
  _simType : Z;
  _radianceParameters : RfluxmtxParameters;
  reuseDaylightMtx : bool;
  analysisGrids : list AnalysisGrid;
  windowGroups : list WindowGroup;
  _commands : list string;
  _resultFiles : list string;
  _isCalculated : bool
}.

Definition with_skyMatrix (s : SkyMatrix) (r : Recipe) : Recipe :=
  mkRecipe s (_simType r) (_radianceParameters r) (reuseDaylightMtx r)
    (analysisGrids r) (windowGroups r) (_commands r) (_resultFiles r) (_isCalculated r).

Definition with_simType (v : Z) (r : Recipe) : Recipe :=
  mkRecipe (_skyMatrix r) v (_radianceParameters r) (reuseDaylightMtx r)
    (analysisGrids r) (windowGroups r) (_commands r) (_resultFiles r) (_isCalculated r).

Definition with_radianceParameters (p : RfluxmtxParameters) (r : Recipe) : Recipe :=
  mkRecipe (_skyMatrix r) (_simType r) p (reuseDaylightMtx r)
    (analysisGrids r) (windowGroups r) (_commands r) (_resultFiles r) (_isCalculated r).

Definition with_reuseDaylightMtx (b : bool) (r : Recipe) : Recipe :=
  mkRecipe (_skyMatrix r) (_simType r) (_radianceParameters r) b
    (analysisGrids r) (windowGroups r) (_commands r) (_resultFiles r) (_isCalculated r).

Definition with_analysisGrids (gs : list AnalysisGrid) (r : Recipe) : Recipe :=
  mkRecipe (_skyMatrix r) (_simType r) (_radianceParameters r) (reuseDaylightMtx r)
    gs (windowGroups r) (_commands r) (_resultFiles r) (_isCalculated r).

Definition with_commands (cs : list string) (r : Recipe) : Recipe :=
  mkRecipe (_skyMatrix r) (_simType r) (_radianceParameters r) (reuseDaylightMtx r)
    (analysisGrids r) (windowGroups r) cs (_resultFiles r) (_isCalculated r).

Definition with_resultFiles (fs : list string) (r : Recipe) : Recipe :=
  mkRecipe (_skyMatrix r) (_simType r) (_radianceParameters r) (reuseDaylightMtx r)
    (analysisGrids r) (windowGroups r) (_commands r) fs (_isCalculated r).

(** The disk: the content of each file that exists. *)
Definition FS : Type := string -> option string.

Definition isfile (fs : FS) (p : string) : bool :=
  match fs p with Some _ => true | None => false end.

(** What a method can read and change: the recipe object, the disk and
    the console. *)
Record World : Type := mkWorld {
  self : Recipe;
  disk : FS;
  stdout : list string
}.

(** ** The monad of methods: state and exceptions *)

Definition M (A : Type) : Type := World -> (exn + A) * World.

Definition ret {A : Type} (a : A) : M A := fun w => (inr a, w).

Definition bind {A B : Type} (c : M A) (k : A -> M B) : M B :=
  fun w =>
    match c w with
    | (inr a, w') => k a w'
    | (inl e, w') => (inl e, w')
    end.

Definition raise {A : Type} (e : exn) : M A := fun w => (inl e, w).

Declare Scope py_scope.
Delimit Scope py_scope with py.
Notation "x <- c1 ;; c2" := (bind c1 (fun x => c2))
  (at level 61, c1 at next level, right associativity) : py_scope.
Notation "' pat <- c1 ;; c2" := (bind c1 (fun x => match x with pat => c2 end))
  (at level 61, pat pattern, c1 at next level, right associativity) : py_scope.
Notation "c1 ;; c2" := (bind c1 (fun _ => c2))
  (at level 61, right associativity) : py_scope.
Local Open Scope py_scope.

(** [self] *)
Definition get_self : M Recipe := fun w => (inr (self w), w).

(** an assignment to attributes of [self] *)
Definition modify_self (f : Recipe -> Recipe) : M unit :=
  fun w => (inr tt, mkWorld (f (self w)) (disk w) (stdout w)).

Definition get_disk : M FS := fun w => (inr (disk w), w).

(** a helper that reads and writes the disk and returns a value *)
Definition on_disk {A : Type} (f : FS -> A * FS) : M A :=
  fun w => let '(a, fs) := f (disk w) in (inr a, mkWorld (self w) fs (stdout w)).

(** [print(line)] *)
Definition print (line : string) : M unit :=
  fun w => (inr tt, mkWorld (self w) (disk w) (stdout w ++ [line])).

(** [assert cond, msg] *)
Definition assert_ (cond : bool) (msg : string) : M unit :=
  if cond then ret tt else raise (AssertionError msg).

(** a pure expression that can raise *)
Definition lift {A : Type} (x : exn + A) : M A :=
  match x with inr a => ret a | inl e => raise e end.

(** [for x in l: body(x)] *)
Fixpoint for_each {A : Type} (l : list A) (body : A -> M unit) : M unit :=
  match l with
  | [] => ret tt
  | x :: l' => body x ;; for_each l' body
  end.

(** ** Attribute setters and derived properties *)

(** The values a caller passes as [simulationType]: an integer, a
    boolean, [None], or any other object, given by what [int] does on it
    (a string that is an integer literal, or a float, gives an integer; a
    string that is not one raises a [ValueError]; a list raises a
    [TypeError]). *)
Inductive pyval : Type :=
| PyInt (n : Z)
| PyBool (b : bool)
| PyNone
| PyObject (int_ : exn + Z).

(** A string that is not an integer literal, such as ['abc']. *)
Definition py_str_invalid (s : string) : pyval :=
  PyObject (inl (OtherError "ValueError"
                   ("invalid literal for int() with base 10: '" ++ s ++ "'")%string)).

(** [int(value)] *)
Definition py_int (value : pyval) : exn + Z :=
  match value with
  | PyInt n => inr n
  | PyBool b => inr (if b then 1%Z else 0%Z)
  | PyNone => inl (TypeError "int() argument must be a string or a number, not 'NoneType'")
  | PyObject r => r
  end.

(** [try: x except TypeError: handler] *)
Definition try_except_TypeError {A : Type} (x : exn + A) (handler : A) : M A :=
  match x with
  | inr a => ret a
  | inl (TypeError _) => ret handler
  | inl e => raise e
  end.

(** [simulationType.setter] *)
Definition set_simulationType (value : pyval) : M unit :=
  value <- try_except_TypeError (py_int value) 0%Z ;;
  assert_ (Z.leb 0 value && Z.leb value 2)
    ("Simulation type should be between 0-2. Current value: " ++ Py.str_of_int value)%string ;;
  (if Z.eqb value 1
   then r <- get_self ;;
        assert_ (isClimateBased (_skyMatrix r))
          "The sky for radition analysis should be climate-based."
   else ret tt) ;;
  modify_self (with_simType value) ;;
  modify_self (fun r => with_skyMatrix (set_skyType value (_skyMatrix r)) r).

(** [simulationType] (getter) *)
Definition simulationType : M Z := r <- get_self ;; ret (_simType r).

(** [skyMatrix.setter]; the argument is a sky object, so the [hasattr]
    assertion holds. *)
Definition set_skyMatrix (newSky : SkyMatrix) : M unit :=
  assert_ (negb (isPointInTime newSky))
    "Sky for daylight coefficient recipe must be a sky matrix." ;;
  modify_self (with_skyMatrix newSky).

(** [radianceParameters.setter]; [None] stands for a false value. *)
Definition set_radianceParameters (par : option RfluxmtxParameters) : M unit :=
  match par with
  | None => modify_self (with_radianceParameters
                           (mkRfluxmtxParameters true "0.1" 4096 5 "0.0002"))
  | Some p => modify_self (with_radianceParameters p)
  end.

(** [totalRunsCount]: the expression of the property, and the property
    read on [self]. *)
Definition totalRunsCount_of (r : Recipe) : Z :=
  (Py.sum (map stateCount (windowGroups r)) + 1)%Z.

Definition totalRunsCount : M Z := r <- get_self ;; ret (totalRunsCount_of r).

(** ** Collaborators of [write] and [results] *)

(** The [inputfiles] tuple. *)
Definition InputFiles : Type :=
  (list string * list string * list string * list string)%type.

(** The arguments [write] passes to the two daylight-coefficient
    builders. *)
Record BuilderArgs : Type := mkBuilderArgs {
  ba_projectName : string;
  ba_skyDensity : Z;
  ba_projectFolder : string;
  ba_skyfiles : list string;
  ba_inputfiles : InputFiles;
  ba_pointsFile : string;
  ba_totalPointCount : Z;
  ba_radianceParameters : RfluxmtxParameters;
  ba_totalCount : Z
}.

(** A daylight-coefficient stage: the base case (all window groups
    blacked) or one state of one window group. *)
Inductive Stage : Type :=
| BaseCase
| GroupState (wg : WindowGroup) (state : Z).

(** Code of the repository outside this file, as [write] and [results]
    call it.  Methods and properties of the base classes are given the
    attributes of the recipe they depend on (the Honeybee objects and the
    sub-folder of the recipe are fixed); helpers that write files take
    the disk and return it.  None of them assigns to the attributes of
    the recipe, and a run in which one of them raises is not modelled. *)
Class Collaborators : Type := {
  (** [AnalysisRecipe.writeContent(targetFolder, projectName, False,
      subfolders=['tmp', 'result/matrix'])]: the project folder *)
  writeContent : string -> string -> FS -> string * FS;
  (** [writeRadFilesDaylightCoeff(folder, projectName, self.opaqueRadFile,
      self.glazingRadFile, self.windowGroupsRadFiles)] *)
  writeRadFilesDaylightCoeff :
    string -> string -> list WindowGroup -> FS ->
    (list string * list string * list string) * FS;
  (** [writeExtraFiles(self.scene, folder)] *)
  writeExtraFiles : string -> FS -> list string * FS;
  (** [self.writeAnalysisGrids(projectFolder, projectName)] *)
  writeAnalysisGrids : list AnalysisGrid -> string -> string -> FS -> string * FS;
  (** [self.header(projectFolder)] *)
  header : string -> string;
  (** [self.totalPointCount] *)
  totalPointCount : list AnalysisGrid -> Z;
  (** the commands that generate the sky matrix, and its files *)
  sky_stage_commands : string -> SkyMatrix -> list string;
  sky_stage_files : string -> SkyMatrix -> list string;
  (** the commands that generate the matrices of a daylight-coefficient
      stage, and its result files *)
  dc_stage_commands : BuilderArgs -> Stage -> list string;
  dc_stage_outputs : BuilderArgs -> Stage -> list string;
  (** the data lines of a result file, after its header *)
  data_lines : string -> list string
}.

Definition newline : string := String (ascii_of_nat 10) EmptyString.

(** Modelled from the spec: [futil.writeToFile] is not in this file; it
    writes a file with the given content. *)
Definition writeToFile (path content : string) (fs : FS) : unit * FS :=
  (tt, fun q => if String.eqb q path then Some content else fs q).

Section Builders.
Context {C : Collaborators}.

(** Modelled from the spec: the reuse policy of a stage builder, which
    is in [recipeutil], not in this file.  A builder returns the
    commands of its stage and the names of its output files; the
    commands are left out, and the output files still declared, when
    reuse is asked for and the output files are already in the project
    folder. *)
Definition build_stage (fs : FS) (projectFolder : string) (reuse : bool)
           (commands outputs : list string) : list string * list string :=
  (if reuse && forallb (fun f => isfile fs (OsPath.join projectFolder f)) outputs
   then [] else commands,
   outputs).

(** Modelled from the spec: [recipeutil.getCommandsSky], the builder of
    the sky-generation stage. *)
Definition getCommandsSky (fs : FS) (projectFolder : string) (sky : SkyMatrix)
           (reuse : bool) : list string * list string :=
  build_stage fs projectFolder reuse
    (sky_stage_commands projectFolder sky) (sky_stage_files projectFolder sky).

Definition build_dc_stage (fs : FS) (args : BuilderArgs) (reuse : bool) (st : Stage)
  : list string * list string :=
  build_stage fs (ba_projectFolder args) reuse
    (dc_stage_commands args st) (dc_stage_outputs args st).

(** Modelled from the spec: [recipeutil.getCommandsSceneDaylightCoeff],
    the builder of the base-scene stage. *)
Definition getCommandsSceneDaylightCoeff (fs : FS) (args : BuilderArgs) (reuse : bool)
  : list string * list string :=
  build_dc_stage fs args reuse BaseCase.

(** The states of a window group, [range(wg.stateCount)]. *)
Definition states_of (wg : WindowGroup) : list Z :=
  map Z.of_nat (seq 0 (Z.to_nat (stateCount wg))).

(** The stages of the window groups: each group in order, each of its
    states in order. *)
Definition group_stages (wgs : list WindowGroup) : list Stage :=
  flat_map (fun wg => map (GroupState wg) (states_of wg)) wgs.

(** Modelled from the spec: [recipeutil.getCommandsWGroupsDaylightCoeff],
    the builder of the per-window-group stages; the reuse policy applies
    to each (group, state) pair on its own. *)
Definition getCommandsWGroupsDaylightCoeff (fs : FS) (args : BuilderArgs)
           (wgs : list WindowGroup) (reuse : bool) : list string * list string :=
  let built := map (build_dc_stage fs args reuse) (group_stages wgs) in
  (flat_map fst built, flat_map snd built).

End Builders.

(** ** The recipe's methods *)

Section Methods.
Context {C : Collaborators}.

(** [self._commands.extend(cs)] *)
Definition extend_commands (cs : list string) : M unit :=
  modify_self (fun r => with_commands (_commands r ++ cs) r).

(** [self._resultFiles.extend(fs)] *)
Definition extend_resultFiles (fs : list string) : M unit :=
  modify_self (fun r => with_resultFiles (_resultFiles r ++ fs) r).

(** ['echo ' + c if c[:2] == '::' else c] *)
Definition echo_comment (c : string) : string :=
  if String.eqb (Py.take 2 c) "::" then ("echo " ++ c)%string else c.

(** [write(targetFolder, projectName, header)] *)
Definition write (targetFolder projectName : string) (header_ : bool) : M string :=
  r <- get_self ;;
  projectFolder <- on_disk (writeContent targetFolder projectName) ;;
  ' (opqfiles, glzfiles, wgsfiles) <-
    on_disk (writeRadFilesDaylightCoeff (projectFolder ++ "/scene")%string projectName
               (windowGroups r)) ;;
  extrafiles <- on_disk (writeExtraFiles (projectFolder ++ "/scene")%string) ;;
  pointsFile <- on_disk (writeAnalysisGrids (analysisGrids r) projectFolder projectName) ;;
  (if header_ then extend_commands [header projectFolder] else ret tt) ;;
  r <- get_self ;;
  fs <- get_disk ;;
  let '(skycommands, skyfiles) := getCommandsSky fs projectFolder (_skyMatrix r) true in
  extend_commands skycommands ;;
  let inputfiles := (opqfiles, glzfiles, wgsfiles, extrafiles) in
  r <- get_self ;;
  total <- totalRunsCount ;;
  fs <- get_disk ;;
  let '(commands, results) :=
    getCommandsSceneDaylightCoeff fs
      (mkBuilderArgs projectName (skyDensity (_skyMatrix r)) projectFolder skyfiles
         inputfiles pointsFile (totalPointCount (analysisGrids r))
         (_radianceParameters r) total)
      (reuseDaylightMtx r) in
  extend_commands commands ;;
  extend_resultFiles (map (fun result => OsPath.join projectFolder result) results) ;;
  r <- get_self ;;
  total <- totalRunsCount ;;
  fs <- get_disk ;;
  let '(commands, results) :=
    getCommandsWGroupsDaylightCoeff fs
      (mkBuilderArgs projectName (skyDensity (_skyMatrix r)) projectFolder skyfiles
         inputfiles pointsFile (totalPointCount (analysisGrids r))
         (_radianceParameters r) total)
      (windowGroups r) (reuseDaylightMtx r) in
  extend_commands commands ;;
  extend_resultFiles (map (fun result => OsPath.join projectFolder result) results) ;;
  let batchFile := OsPath.join projectFolder "commands.bat" in
  r <- get_self ;;
  let cmds := map echo_comment (_commands r) in
  on_disk (writeToFile batchFile (Py.join newline ("@echo off" :: cmds))) ;;
  ret batchFile.

(** Modelled from the spec: [AnalysisGrid.setValuesFromFile] is not in
    this file.  As [results] calls it (with a header, without the point
    count check) it reads the file once and gives the grid [len(grid)]
    consecutive data lines from line [startLine] on, under the given
    source and state; a file that ends early gives the lines there are.
    It opens the file, so a missing file raises. *)
Definition setValuesFromFile (g : AnalysisGrid) (filePath : string) (hoys_ : list Z)
           (source state : string) (startLine : Z) : M AnalysisGrid :=
  fs <- get_disk ;;
  match fs filePath with
  | None => raise (IOError filePath)
  | Some content =>
      let rows := firstn (List.length (points g))
                    (skipn (Z.to_nat startLine) (data_lines content)) in
      ret (mkAnalysisGrid (grid_name g) (points g)
             (mkResultEntry source state hoys_ rows :: loaded g))
  end.

(** [self.analysisGrids[i]] *)
Definition grid_at (i : nat) : M AnalysisGrid :=
  r <- get_self ;; lift (Py.index (analysisGrids r) i).

(** The grid objects are changed in place: the grid at position [i] of
    [self.analysisGrids] becomes [g]. *)
Fixpoint replace_nth {A : Type} (i : nat) (x : A) (l : list A) : list A :=
  match l, i with
  | [], _ => []
  | _ :: l', O => x :: l'
  | y :: l', S j => y :: replace_nth j x l'
  end.

Definition store_grid (i : nat) (g : AnalysisGrid) : M unit :=
  modify_self (fun r => with_analysisGrids (replace_nth i g (analysisGrids r)) r).

(** The inner loop of [results], [for count, analysisGrid in
    enumerate(self.analysisGrids)], over the counts still to visit, with
    the running [startLine]. *)
Fixpoint results_grids (rf source state : string) (counts : list nat) (startLine : Z)
  : M unit :=
  match counts with
  | [] => ret tt
  | count :: counts' =>
      startLine <- (match count with
                    | O => ret startLine
                    | S prev => g <- grid_at prev ;; ret (startLine + grid_len g)%Z
                    end) ;;
      analysisGrid <- grid_at count ;;
      r <- get_self ;;
      g' <- setValuesFromFile analysisGrid rf (hoys (_skyMatrix r)) source state startLine ;;
      store_grid count g' ;;
      results_grids rf source state counts' startLine
  end.

(** [fn = os.path.split(rf)[-1][:-4].split("..")] *)
Definition name_segments (rf : string) : list string :=
  Py.split (Py.drop_last 4 (OsPath.split_tail rf)) "..".

(** [source = fn[-2]; state = fn[-1]] *)
Definition source_and_state (rf : string) : exn + (string * string) :=
  let fn := name_segments rf in
  match Py.index_neg fn 2 with
  | inl e => inl e
  | inr source =>
      match Py.index_neg fn 1 with
      | inl e => inl e
      | inr state => inr (source, state)
      end
  end.

(** The body of the outer loop of [results], for one result file. *)
Definition results_file (rf : string) : M unit :=
  ' (source, state) <- lift (source_and_state rf) ;;
  print ("loading restults for " ++ source ++ "::" ++ state ++ " from " ++ rf)%string ;;
  r <- get_self ;;
  results_grids rf source state (seq 0 (List.length (analysisGrids r))) 0%Z.

(** [results()] *)
Definition results : M (list AnalysisGrid) :=
  r <- get_self ;;
  assert_ (_isCalculated r)
    ("You haven't run the Recipe yet. Use self.run " ++
     "to run the analysis before loading the results.")%string ;;
  for_each (_resultFiles r) results_file ;;
  r <- get_self ;;
  ret (analysisGrids r).

End Methods.

(** ** What one call of [write] emits and declares

    The values [write] computes on the way, named so that statements
    about it can refer to them. *)

(** The outcome of the preparation steps of [write]: the project folder,
    the input files, the points file and the disk they leave. *)
Record Prepared : Type := mkPrepared {
  p_folder : string;
  p_inputfiles : InputFiles;
  p_pointsFile : string;
  p_disk : FS
}.

Section WriteSummary.
Context {C : Collaborators}.

Definition prepare (r : Recipe) (targetFolder projectName : string) (fs : FS) : Prepared :=
  let '(folder, fs1) := writeContent targetFolder projectName fs in
  let '((opq, glz, wgs), fs2) :=
    writeRadFilesDaylightCoeff (folder ++ "/scene")%string projectName (windowGroups r) fs1 in
  let '(extra, fs3) := writeExtraFiles (folder ++ "/scene")%string fs2 in
  let '(pts, fs4) := writeAnalysisGrids (analysisGrids r) folder projectName fs3 in
  mkPrepared folder (opq, glz, wgs, extra) pts fs4.

Definition builder_args (r : Recipe) (projectName : string) (p : Prepared) : BuilderArgs :=
  mkBuilderArgs projectName (skyDensity (_skyMatrix r)) (p_folder p)
    (sky_stage_files (p_folder p) (_skyMatrix r)) (p_inputfiles p) (p_pointsFile p)
    (totalPointCount (analysisGrids r)) (_radianceParameters r) (totalRunsCount_of r).

(** The daylight-coefficient stages of a recipe, in the order of the
    script: the base case, then the states of each window group. *)
Definition all_stages (r : Recipe) : list Stage :=
  BaseCase :: group_stages (windowGroups r).

(** The files of a stage are on the disk the builders see. *)
Definition outputs_exist (p : Prepared) (args : BuilderArgs) (st : Stage) : bool :=
  forallb (fun f => isfile (p_disk p) (OsPath.join (p_folder p) f)) (dc_stage_outputs args st).

Definition sky_exists (r : Recipe) (p : Prepared) : bool :=
  forallb (fun f => isfile (p_disk p) (OsPath.join (p_folder p) f))
    (sky_stage_files (p_folder p) (_skyMatrix r)).

Definition header_part (header_ : bool) (p : Prepared) : list string :=
  if header_ then [header (p_folder p)] else [].

Definition sky_part (r : Recipe) (p : Prepared) : list string :=
  if sky_exists r p then [] else sky_stage_commands (p_folder p) (_skyMatrix r).

(** The commands a stage contributes to the script. *)
Definition stage_part (r : Recipe) (p : Prepared) (args : BuilderArgs) (st : Stage)
  : list string :=
  if reuseDaylightMtx r && outputs_exist p args st then [] else dc_stage_commands args st.

(** The result files a stage declares. *)
Definition stage_files (p : Prepared) (args : BuilderArgs) (st : Stage) : list string :=
  map (OsPath.join (p_folder p)) (dc_stage_outputs args st).

Definition dc_part (r : Recipe) (p : Prepared) (args : BuilderArgs) (sts : list Stage)
  : list string :=
  flat_map (stage_part r p args) sts.

(** All the commands one call appends to [self._commands]. *)
Definition emitted (r : Recipe) (targetFolder projectName : string) (header_ : bool) (fs : FS)
  : list string :=
  let p := prepare r targetFolder projectName fs in
  header_part header_ p ++ sky_part r p
    ++ dc_part r p (builder_args r projectName p) (all_stages r).

(** All the files one call appends to [self._resultFiles]. *)
Definition declared (r : Recipe) (targetFolder projectName : string) (fs : FS) : list string :=
  let p := prepare r targetFolder projectName fs in
  flat_map (stage_files p (builder_args r projectName p)) (all_stages r).

(** The batch file and the world one call leaves. *)
Definition batch_path (p : Prepared) : string := OsPath.join (p_folder p) "commands.bat".

Definition after_write (targetFolder projectName : string) (header_ : bool) (w : World)
  : World :=
  let r := self w in
  let p := prepare r targetFolder projectName (disk w) in
  let cmds := _commands r ++ emitted r targetFolder projectName header_ (disk w) in
  let files := _resultFiles r ++ declared r targetFolder projectName (disk w) in
  mkWorld (with_resultFiles files (with_commands cmds r))
    (snd (writeToFile (batch_path p)
            (Py.join newline ("@echo off" :: map echo_comment cmds)) (p_disk p)))
    (stdout w).

End WriteSummary.

(** ** What [results] loads

    The grids after a merge, written as plain functions of the grids
    before. *)

Definition total_len (gs : list AnalysisGrid) : Z :=
  fold_right Z.add 0%Z (map grid_len gs).

(** The sum of the point counts of the grids before grid [k]. *)
Definition offset_of (gs : list AnalysisGrid) (k : nat) : Z := total_len (firstn k gs).

(** [n] consecutive lines of [data] from line [start] on. *)
Definition lines_from (data : list string) (start : Z) (n : nat) : list string :=
  firstn n (skipn (Z.to_nat start) data).

(** A name segment without a dot. *)
Fixpoint no_dot (s : string) : bool :=
  match s with
  | EmptyString => true
  | String c s' => negb (Ascii.eqb c ".") && no_dot s'
  end.

Definition source_of (rf : string) : string :=
  let fn := Py.split (Py.drop_last 4 (OsPath.split_tail rf)) ".." in
  nth (List.length fn - 2) fn EmptyString.

Definition state_of (rf : string) : string :=
  let fn := Py.split (Py.drop_last 4 (OsPath.split_tail rf)) ".." in
  nth (List.length fn - 1) fn EmptyString.

Definition content_of (fs : FS) (rf : string) : string :=
  match fs rf with Some c => c | None => EmptyString end.

Definition load_grid (hoys_ : list Z) (source state : string) (data : list string)
           (start : Z) (g : AnalysisGrid) : AnalysisGrid :=
  mkAnalysisGrid (grid_name g) (points g)
    (mkResultEntry source state hoys_ (lines_from data start (List.length (points g)))
       :: loaded g).

Fixpoint load_from (hoys_ : list Z) (source state : string) (data : list string)
         (start : Z) (gs : list AnalysisGrid) : list AnalysisGrid :=
  match gs with
  | [] => []
  | g :: gs' =>
      load_grid hoys_ source state data start g
        :: load_from hoys_ source state data (start + grid_len g)%Z gs'
  end.

(** The message of the assertion that opens [results]. *)
Definition not_run_message : string :=
  "You haven't run the Recipe yet. Use self.run to run the analysis before loading the results.".

Definition log_line (rf : string) : string :=
  ("loading restults for " ++ source_of rf ++ "::" ++ state_of rf ++ " from " ++ rf)%string.

Section ResultsSummary.
Context {C : Collaborators}.

Definition merged_file (fs : FS) (sky : SkyMatrix) (gs : list AnalysisGrid) (rf : string)
  : list AnalysisGrid :=
  load_from (hoys sky) (source_of rf) (state_of rf) (data_lines (content_of fs rf)) 0%Z gs.

Definition merged (fs : FS) (sky : SkyMatrix) (rfs : list string) (gs : list AnalysisGrid)
  : list AnalysisGrid :=
  fold_left (merged_file fs sky) rfs gs.

(** The block grid [k] receives from result file [rf]. *)
Definition entry_of (fs : FS) (sky : SkyMatrix) (gs : list AnalysisGrid) (k : nat)
           (g : AnalysisGrid) (rf : string) : ResultEntry :=
  mkResultEntry (source_of rf) (state_of rf) (hoys sky)
    (lines_from (data_lines (content_of fs rf)) (offset_of gs k) (List.length (points g))).

(** A result file that [results] can load: it is on the disk and its
    name has the two segments. *)
Definition loadable (fs : FS) (rf : string) : bool :=
  isfile fs rf && Nat.leb 2 (List.length (name_segments rf)).

Definition after_results (w : World) (rfs : list string) : World :=
  mkWorld (with_analysisGrids
             (merged (disk w) (_skyMatrix (self w)) rfs (analysisGrids (self w))) (self w))
    (disk w) (stdout w ++ map log_line rfs).

End ResultsSummary.

(** ** A concrete project

    Collaborators and recipes on which the statements below are run. *)

Module Demo.

Definition stage_name (st : Stage) : string :=
  match st with
  | BaseCase => "scene..default"
  | GroupState wg state => (wg_name wg ++ ".." ++ Py.str_of_int state)%string
  end.

#[export] Instance collaborators : Collaborators := {|
  writeContent := fun targetFolder projectName fs =>
    (OsPath.join (OsPath.join targetFolder projectName) "gridbased_daylightcoeff", fs);
  writeRadFilesDaylightCoeff := fun folder projectName wgs fs =>
    (([OsPath.join folder (projectName ++ "..opq.rad")%string],
      [OsPath.join folder (projectName ++ "..glz.rad")%string],
      map (fun wg => OsPath.join folder (wg_name wg ++ ".rad")%string) wgs), fs);
  writeExtraFiles := fun folder fs => ([], fs);
  writeAnalysisGrids := fun gs folder projectName fs =>
    (OsPath.join folder (projectName ++ ".pts")%string, fs);
  header := fun folder => ("cd " ++ folder)%string;
  totalPointCount := total_len;
  sky_stage_commands := fun folder sky =>
    [":: sky matrix"; "gendaymtx -m 1 sky/sky.wea > sky/skymtx.smx"];
  sky_stage_files := fun folder sky => ["sky/skymtx.smx"];
  dc_stage_commands := fun args st =>
    [(":: " ++ stage_name st)%string;
     ("rfluxmtx - < " ++ ba_pointsFile args ++ " > result/matrix/" ++ stage_name st ++ ".dc")%string];
  dc_stage_outputs := fun args st =>
    [("result/" ++ ba_projectName args ++ ".." ++ stage_name st ++ ".ill")%string];
  data_lines := fun content => Py.split content newline
|}.

Definition sky : SkyMatrix := mkSkyMatrix true false 0 1 [0; 1]%Z.
Definition sky_not_climate : SkyMatrix := mkSkyMatrix false false 0 1 [0; 1]%Z.
Definition parameters : RfluxmtxParameters := mkRfluxmtxParameters true "0.1" 4096 5 "0.0002".

Definition pt (x : string) : Point := (x, "0", "0").
Definition grid1 : AnalysisGrid := mkAnalysisGrid "g1" [pt "0"; pt "1"] [].
Definition grid2 : AnalysisGrid := mkAnalysisGrid "g2" [pt "2"; pt "3"; pt "4"] [].

Definition blinds : WindowGroup := mkWindowGroup "blinds" 3.
Definition shades : WindowGroup := mkWindowGroup "shades" 2.

Definition recipe : Recipe :=
  mkRecipe sky 0 parameters true [grid1; grid2] [blinds; shades] [] [] false.

Definition recipe_no_reuse : Recipe :=
  mkRecipe sky 0 parameters false [grid1; grid2] [blinds; shades] [] [] false.

Definition recipe_not_climate : Recipe :=
  mkRecipe sky_not_climate 0 parameters true [grid1; grid2] [] [] [] false.

Definition no_files : FS := fun _ => None.

Definition base_ill : string := "/w/p/gridbased_daylightcoeff/result/p..scene..default.ill".

(** A disk on which the result file of the base case is already there. *)
Definition base_done : FS :=
  fun q => if String.eqb q base_ill then Some "old" else None.

(** A disk on which the sky matrix is already there. *)
Definition sky_done : FS :=
  fun q => if String.eqb q "/w/p/gridbased_daylightcoeff/sky/skymtx.smx"
           then Some "old" else None.

Definition world (r : Recipe) (fs : FS) : World := mkWorld r fs [].

(** Five data lines: two for the first grid, three for the second. *)
Definition five_lines : string :=
  Py.join newline ["10 11"; "20 21"; "30 31"; "40 41"; "50 51"].

(** Seven data lines: two more than the two grids have points. *)
Definition seven_lines : string :=
  Py.join newline ["10 11"; "20 21"; "30 31"; "40 41"; "50 51"; "60 61"; "70 71"].

Definition ran (files : list string) (content : string) : World :=
  mkWorld (mkRecipe sky 0 parameters true [grid1; grid2] [] [] files true)
    (fun q => if String.eqb q base_ill then Some content else None) [].

(** The prepared project and the builder arguments of [write "/w" "p"]. *)
Definition prepared : Prepared := prepare recipe "/w" "p" base_done.
Definition args : BuilderArgs := builder_args recipe "p" prepared.

(** A result file whose name has no double dot, and one with a
    four-character extension. *)
Definition broken_ill : string := "/w/p/gridbased_daylightcoeff/result/broken.ill".
Definition base_json : string := "/w/p/gridbased_daylightcoeff/result/p..scene..default.json".

(** The two grids loaded from the first five lines. *)
Definition grids_loaded : list AnalysisGrid :=
  [mkAnalysisGrid "g1" [pt "0"; pt "1"]
     [mkResultEntry "scene" "default" [0; 1]%Z ["10 11"; "20 21"]];
   mkAnalysisGrid "g2" [pt "2"; pt "3"; pt "4"]
     [mkResultEntry "scene" "default" [0; 1]%Z ["30 31"; "40 41"; "50 51"]]].

End Demo.

(** ** The rest of the class: getters, constructor and class methods *)

(** More of Python's [str]. *)
Module PyStr.

(** [c.lower()] for one character: the letters A to Z. *)
Definition lower_char (c : ascii) : ascii :=
  let n := nat_of_ascii c in
  if Nat.leb 65 n && Nat.leb n 90 then ascii_of_nat (n + 32) else c.

(** [s.lower()] *)
Fixpoint lower (s : string) : string :=
  match s with
  | EmptyString => EmptyString
  | String c s' => String (lower_char c) (lower s')
  end.

(** [s.endswith(suffix)]: some tail of [s] is [suffix]. *)
Fixpoint endswith (s suffix : string) : bool :=
  String.eqb s suffix
  || match s with
     | EmptyString => false
     | String _ s' => endswith s' suffix
     end.

(** The whitespace of [str.split()]: space, tab, newline, carriage
    return, vertical tab, form feed. *)
Definition is_space (c : ascii) : bool :=
  let n := nat_of_ascii c in
  Nat.eqb n 32 || (Nat.leb 9 n && Nat.leb n 13).

(** [s.split()]: the runs of non-whitespace characters; [cur] is the run
    being read. *)
Fixpoint split_ws_go (s cur : string) : list string :=
  match s with
  | EmptyString => match cur with EmptyString => [] | _ => [cur] end
  | String c s' =>
      if is_space c
      then match cur with
           | EmptyString => split_ws_go s' EmptyString
           | _ => cur :: split_ws_go s' EmptyString
           end
      else split_ws_go s' (cur ++ String c EmptyString)%string
  end.

Definition split_ws (s : string) : list string := split_ws_go s EmptyString.

(** [for c in s]: the characters of a string, each a string. *)
Fixpoint chars (s : string) : list string :=
  match s with
  | EmptyString => []
  | String c s' => String c EmptyString :: chars s'
  end.

(** [inf.readline()] on what is left of a file read in binary mode: the
    line with its newline, and what is left after it. *)
Fixpoint readline (s : string) : string * string :=
  match s with
  | EmptyString => (EmptyString, EmptyString)
  | String c s' =>
      if Ascii.eqb c (ascii_of_nat 10) then (String c EmptyString, s')
      else let '(line, rest) := readline s' in (String c line, rest)
  end.

End PyStr.

(** [skyMatrix] (getter) *)
Definition get_skyMatrix : M SkyMatrix := r <- get_self ;; ret (_skyMatrix r).

(** [radianceParameters] (getter) *)
Definition get_radianceParameters : M RfluxmtxParameters :=
  r <- get_self ;; ret (_radianceParameters r).

(** [skyDensity]: ["r{}".format(self.skyMatrix.skyDensity)] *)
Definition get_skyDensity : M string :=
  r <- get_self ;; ret ("r" ++ Py.str_of_int (skyDensity (_skyMatrix r)))%string.

(** [__init__], run on the object as [GenericGridBased.__init__] leaves
    it: the four assignments, each through its setter. *)
Definition __init__ (skyMtx : SkyMatrix) (simulationType_ : pyval)
           (radianceParameters_ : option RfluxmtxParameters) (reuseDaylightMtx_ : bool)
  : M unit :=
  set_skyMatrix skyMtx ;;
  set_simulationType simulationType_ ;;
  set_radianceParameters radianceParameters_ ;;
  modify_self (with_reuseDaylightMtx reuseDaylightMtx_).

(** What the setters of the class check, taken together: the sky is a
    matrix, the simulation type is 0, 1 or 2 and is the one the sky
    records, and radiation goes with a climate-based sky. *)
Definition consistent (r : Recipe) : bool :=
  negb (isPointInTime (_skyMatrix r))
  && Z.leb 0 (_simType r) && Z.leb (_simType r) 2
  && Z.eqb (skyType (_skyMatrix r)) (_simType r)
  && (negb (Z.eqb (_simType r) 1) || isClimateBased (_skyMatrix r)).

(** The integer the simulation-type setter goes on with: [int(value)],
    or 0 when [int] raises a [TypeError]. *)
Definition int_or_zero (value : pyval) : Z :=
  match py_int value with
  | inr v => v
  | inl _ => 0%Z
  end.

(** The parameters the parameter setter stores. *)
Definition parameters_or_default (par : option RfluxmtxParameters) : RfluxmtxParameters :=
  match par with
  | Some p => p
  | None => mkRfluxmtxParameters true "0.1" 4096 5 "0.0002"
  end.

(** The object [__init__] leaves when no assertion fails. *)
Definition initialised (r : Recipe) (skyMtx : SkyMatrix) (simulationType_ : pyval)
           (radianceParameters_ : option RfluxmtxParameters) (reuseDaylightMtx_ : bool)
  : Recipe :=
  mkRecipe (set_skyType (int_or_zero simulationType_) skyMtx) (int_or_zero simulationType_)
    (parameters_or_default radianceParameters_) reuseDaylightMtx_
    (analysisGrids r) (windowGroups r) (_commands r) (_resultFiles r) (_isCalculated r).

(** The exception of [int(value)] that the setter does not catch, if
    any: one that is not a [TypeError]. *)
Definition int_raises (value : pyval) : option exn :=
  match py_int value with
  | inr _ => None
  | inl (TypeError _) => None
  | inl e => Some e
  end.

(** What is checked on the way: [int] reads the simulation type or raises
    a [TypeError], and the two assertions hold. *)
Definition accepted (skyMtx : SkyMatrix) (simulationType_ : pyval) : bool :=
  negb (isPointInTime skyMtx)
  && match int_raises simulationType_ with None => true | Some _ => false end
  && Z.leb 0 (int_or_zero simulationType_) && Z.leb (int_or_zero simulationType_) 2
  && (negb (Z.eqb (int_or_zero simulationType_) 1) || isClimateBased skyMtx).

(** A string without a newline. *)
Fixpoint no_newline (s : string) : bool :=
  match s with
  | EmptyString => true
  | String c s' => negb (Ascii.eqb c (ascii_of_nat 10)) && no_newline s'
  end.

(** A string that starts with a dot. *)
Definition starts_dot (s : string) : bool :=
  match s with
  | String c _ => Ascii.eqb c "."
  | EmptyString => false
  end.

(** A double dot somewhere in a string. *)
Fixpoint has_double_dot (s : string) : bool :=
  String.prefix ".." s
  || match s with
     | EmptyString => false
     | String _ s' => has_double_dot s'
     end.

(** What [results] leaves alone between two worlds: the disk, every
    attribute of the recipe but the blocks loaded on its grids, the names
    and the points of the grids; the console only grows. *)
Definition results_frame (w w' : World) : Prop :=
  disk w' = disk w
  /\ with_analysisGrids [] (self w') = with_analysisGrids [] (self w)
  /\ map grid_name (analysisGrids (self w')) = map grid_name (analysisGrids (self w))
  /\ map points (analysisGrids (self w')) = map points (analysisGrids (self w))
  /\ exists more, stdout w' = stdout w ++ more.

(** The point and vector groups as [fromPointsFile] builds them: a list
    of strings per group. *)
Definition Groups : Type := list (list string).

(** Code of the repository outside this file that the class methods
    call. *)
Class Factories : Type := {
  (** [SkyMatrix.fromEpwFile(epwFile, skyDensity)] *)
  fromEpwFile : string -> Z -> SkyMatrix;
  (** [cls.analysisGridsFromPointsAndVectors(pointGroups, vectorGroups)] *)
  analysisGridsFromPointsAndVectors : Groups -> option Groups -> list AnalysisGrid;
  (** the new object as [GenericGridBased.__init__(self, analysisGrids,
      hbObjects, subFolder)] leaves it; the four attributes of this class
      are not set yet, and what the record holds for them is overwritten
      before it is read *)
  generic_init : list AnalysisGrid -> Recipe
}.

(** What a class method can raise: the [ValueError] of [fromPointsFile],
    or an exception of the constructor. *)
Inductive factory_exn : Type :=
| ValueError (msg : string)
| Raised (e : exn).

Section ClassMethods.
Context {F : Factories}.

(** [cls(skyMtx, analysisGrids, simulationType, radianceParameters,
    reuseDaylightMtx, hbObjects, subFolder)]: a new object, initialised. *)
Definition cls (skyMtx : SkyMatrix) (analysisGrids_ : list AnalysisGrid)
           (simulationType_ : pyval) (radianceParameters_ : option RfluxmtxParameters)
           (reuseDaylightMtx_ : bool) : exn + Recipe :=
  match __init__ skyMtx simulationType_ radianceParameters_ reuseDaylightMtx_
          (mkWorld (generic_init analysisGrids_) (fun _ => None) []) with
  | (inr _, w) => inr (self w)
  | (inl e, _) => inl e
  end.

(** [fromWeatherFilePointsAndVectors] *)
Definition fromWeatherFilePointsAndVectors (epwFile : string) (pointGroups : Groups)
           (vectorGroups : option Groups) (skyDensity_ : Z) (simulationType_ : pyval)
           (radianceParameters_ : option RfluxmtxParameters) (reuseDaylightMtx_ : bool)
  : exn + Recipe :=
  if PyStr.endswith (PyStr.lower epwFile) ".epw"
  then
    let skyMtx := fromEpwFile epwFile skyDensity_ in
    let analysisGrids_ := analysisGridsFromPointsAndVectors pointGroups vectorGroups in
    cls skyMtx analysisGrids_ simulationType_ radianceParameters_ reuseDaylightMtx_
  else inl (AssertionError (epwFile ++ " is not a an EnergyPlus weather file.")%string).

(** The two generator expressions of [fromPointsFile]: one group per
    character of the first line, one per character of the second. *)
Definition read_pointGroups (content : string) : Groups :=
  map (fun line => firstn 3 (PyStr.split_ws line))
    (PyStr.chars (fst (PyStr.readline content))).

Definition read_vectorGroups (content : string) : Groups :=
  map (fun line => skipn 3 (PyStr.split_ws line))
    (PyStr.chars (fst (PyStr.readline (snd (PyStr.readline content))))).

(** [fromPointsFile], the file read in binary mode as a Python 2 [str]
    (the class is used with the [print] statement).  Any exception while
    reading becomes a [ValueError]. *)
Definition fromPointsFile (fs : FS) (epwFile pointsFile : string) (skyDensity_ : Z)
           (simulationType_ : pyval) (radianceParameters_ : option RfluxmtxParameters)
           (reuseDaylightMtx_ : bool) : factory_exn + Recipe :=
  match fs pointsFile with
  | None => inl (ValueError ("Couldn't import points from " ++ pointsFile)%string)
  | Some content =>
      match fromWeatherFilePointsAndVectors epwFile (read_pointGroups content)
              (Some (read_vectorGroups content)) skyDensity_ simulationType_
              radianceParameters_ reuseDaylightMtx_ with
      | inl e => inl (Raised e)
      | inr r => inr r
      end
  end.

End ClassMethods.

(** A concrete set of factories. *)
Module DemoFactory.

#[export] Instance factories : Factories := {|
  fromEpwFile := fun epwFile density => mkSkyMatrix true false 0 density [0; 1]%Z;
  analysisGridsFromPointsAndVectors := fun pointGroups vectorGroups =>
    [mkAnalysisGrid "grid"
       (map (fun g => (nth 0 g "0", nth 1 g "0", nth 2 g "0")) pointGroups) []];
  generic_init := fun gs =>
    mkRecipe (mkSkyMatrix false true 9 0 []) 9 (mkRfluxmtxParameters false "" 0 0 "")
      false gs [] [] [] false
|}.

Definition point_in_time : SkyMatrix := mkSkyMatrix true true 0 1 [0]%Z.

(** A points file with one row of coordinates and directions. *)
Definition points_disk : FS :=
  fun q => if String.eqb q "grid.pts"
           then Some ("1 2 3 0 0 1" ++ newline ++ "4 5 6 0 0 1" ++ newline)%string
           else None.

End DemoFactory.

(** * Properties *)

(** ** The monad *)

Section MonadFacts.

Lemma bind_ret_l {A B : Type} (a : A) (k : A -> M B) (w : World) :
  bind (ret a) k w = k a w.
Proof. reflexivity. Qed.

Lemma bind_raise {A B : Type} (e : exn) (k : A -> M B) (w : World) :
  bind (raise e) k w = (inl e, w).
Proof. reflexivity. Qed.

Lemma bind_ok {A B : Type} (c : M A) (k : A -> M B) (w w' : World) (a : A) :
  c w = (inr a, w') -> bind c k w = k a w'.
Proof. intros H. unfold bind. now rewrite H. Qed.

Lemma bind_fail {A B : Type} (c : M A) (k : A -> M B) (w w' : World) (e : exn) :
  c w = (inl e, w') -> bind c k w = (inl e, w').
Proof. intros H. unfold bind. now rewrite H. Qed.

End MonadFacts.

(** ** Lists *)

Lemma sum_from (l : list Z) (a : Z) :
  fold_left Z.add l a = (a + fold_right Z.add 0 l)%Z.
Proof.
  revert a. induction l as [|x l IH]; intros a; simpl.
  - lia.
  - rewrite IH. lia.
Qed.

Lemma py_sum_fold_right (l : list Z) : Py.sum l = fold_right Z.add 0%Z l.
Proof. unfold Py.sum. rewrite sum_from. lia. Qed.

Lemma flat_map_map {A B X : Type} (f : A -> B) (g : B -> list X) (l : list A) :
  flat_map g (map f l) = flat_map (fun a => g (f a)) l.
Proof. induction l as [|a l IH]; simpl; [reflexivity | now rewrite IH]. Qed.

Lemma map_flat_map {A B X : Type} (f : B -> X) (g : A -> list B) (l : list A) :
  map f (flat_map g l) = flat_map (fun a => map f (g a)) l.
Proof.
  induction l as [|a l IH]; simpl; [reflexivity |].
  now rewrite map_app, IH.
Qed.

(** ** [write] in closed form *)

Section WriteFacts.
Context {C : Collaborators}.

(** One call of [write] returns the path of the batch file and leaves the
    world [after_write] describes. *)
Lemma write_run (targetFolder projectName : string) (header_ : bool) (w : World) :
  write targetFolder projectName header_ w
  = (inr (batch_path (prepare (self w) targetFolder projectName (disk w))),
     after_write targetFolder projectName header_ w).
Proof.
  destruct w as [r fs out].
  unfold write, after_write, emitted, declared, prepare, batch_path.
  unfold bind, get_self, on_disk, get_disk, totalRunsCount, extend_commands,
    extend_resultFiles, modify_self, ret; cbn.
  destruct (writeContent targetFolder projectName fs) as [folder fs1]; cbn.
  destruct (writeRadFilesDaylightCoeff (folder ++ "/scene")%string projectName
              (windowGroups r) fs1) as [[[opq glz] wgs] fs2]; cbn.
  destruct (writeExtraFiles (folder ++ "/scene")%string fs2) as [extra fs3]; cbn.
  destruct (writeAnalysisGrids (analysisGrids r) folder projectName fs3) as [pts fs4]; cbn.
  unfold header_part, sky_part, sky_exists, dc_part, all_stages, builder_args,
    stage_part, stage_files, outputs_exist, build_dc_stage, build_stage,
    totalRunsCount_of; cbn.
  destruct header_; cbn; unfold bind, modify_self, get_self, ret; cbn;
    rewrite !flat_map_map, !map_flat_map; cbn;
    rewrite <- ?app_assoc; cbn; reflexivity.
Qed.

End WriteFacts.

(** ** Grids and offsets *)

Lemma total_len_app (a b : list AnalysisGrid) :
  total_len (a ++ b) = (total_len a + total_len b)%Z.
Proof.
  unfold total_len. induction a as [|g a IH]; simpl; [reflexivity | rewrite IH; lia].
Qed.

Lemma total_len_nonneg (gs : list AnalysisGrid) : (0 <= total_len gs)%Z.
Proof.
  unfold total_len, grid_len. induction gs as [|g gs IH]; simpl; lia.
Qed.

Lemma offset_of_points (gs gs' : list AnalysisGrid) (k : nat) :
  map points gs = map points gs' -> offset_of gs k = offset_of gs' k.
Proof.
  unfold offset_of, total_len, grid_len.
  revert gs' k. induction gs as [|g gs IH]; intros [|g' gs'] k H; try discriminate.
  - reflexivity.
  - simpl in H. injection H as Hp Hr.
    destruct k as [|k]; simpl; [reflexivity |].
    rewrite Hp. f_equal. apply IH, Hr.
Qed.

Lemma offset_of_S (gs : list AnalysisGrid) (k : nat) (g : AnalysisGrid) :
  nth_error gs k = Some g -> offset_of gs (S k) = (offset_of gs k + grid_len g)%Z.
Proof.
  unfold offset_of, total_len.
  revert k. induction gs as [|x gs IH]; intros [|k] H; try discriminate.
  - simpl in H. injection H as ->. simpl. lia.
  - simpl in H. specialize (IH k H). simpl in *. lia.
Qed.

Lemma replace_nth_middle {A : Type} (a : list A) (x y : A) (b : list A) :
  replace_nth (List.length a) y (a ++ x :: b) = a ++ y :: b.
Proof. induction a as [|z a IH]; simpl; [reflexivity | now rewrite IH]. Qed.

Lemma nth_error_middle {A : Type} (a : list A) (x : A) (b : list A) :
  nth_error (a ++ x :: b) (List.length a) = Some x.
Proof. induction a as [|z a IH]; simpl; [reflexivity | exact IH]. Qed.

Lemma load_from_points (h : list Z) (s st : string) (data : list string) (gs : list AnalysisGrid) :
  forall start, map points (load_from h s st data start gs) = map points gs.
Proof.
  induction gs as [|g gs IH]; intros start; simpl; [reflexivity | now rewrite IH].
Qed.

Lemma load_from_length (h : list Z) (s st : string) (data : list string) (gs : list AnalysisGrid) :
  forall start, List.length (load_from h s st data start gs) = List.length gs.
Proof.
  induction gs as [|g gs IH]; intros start; simpl; [reflexivity | now rewrite IH].
Qed.

(** Grid [k] is loaded from the line at the sum of the sizes of the grids
    before it. *)
Lemma load_from_nth (h : list Z) (s st : string) (data : list string) (gs : list AnalysisGrid) :
  forall start k g,
    nth_error gs k = Some g ->
    nth_error (load_from h s st data start gs) k
    = Some (load_grid h s st data (start + offset_of gs k)%Z g).
Proof.
  induction gs as [|x gs IH]; intros start [|k] g H; try discriminate.
  - simpl in H. injection H as ->. simpl. unfold offset_of, total_len. simpl.
    now rewrite Z.add_0_r.
  - simpl in H. simpl. rewrite (IH _ _ _ H). do 2 f_equal.
    unfold offset_of, total_len. simpl. lia.
Qed.

Section ResultsFacts.
Context {C : Collaborators}.

Lemma with_analysisGrids_same (r : Recipe) : with_analysisGrids (analysisGrids r) r = r.
Proof. now destruct r. Qed.

Lemma setValuesFromFile_run (g : AnalysisGrid) (rf content : string) (h : list Z)
      (source state : string) (start : Z) (w : World) :
  disk w rf = Some content ->
  setValuesFromFile g rf h source state start w
  = (inr (load_grid h source state (data_lines content) start g), w).
Proof.
  intros H. unfold setValuesFromFile, bind, get_disk. now rewrite H.
Qed.

(** The inner loop, started at grid [length done] with the running start
    line of the source (one grid behind), loads the remaining grids. *)
Lemma results_grids_run (rf source state content : string) :
  forall (rest done : list AnalysisGrid) (r : Recipe) (fs : FS) (out : list string),
    fs rf = Some content ->
    analysisGrids r = done ++ rest ->
    results_grids rf source state (seq (List.length done) (List.length rest))
      (total_len (removelast done)) (mkWorld r fs out)
    = (inr tt,
       mkWorld (with_analysisGrids
                  (done ++ load_from (hoys (_skyMatrix r)) source state
                             (data_lines content) (total_len done) rest) r) fs out).
Proof.
  induction rest as [|g rest IH]; intros done r fs out Hrf Hgs.
  - simpl. unfold ret. rewrite <- Hgs, with_analysisGrids_same. reflexivity.
  - cbn [List.length seq results_grids].
    assert (Hstart :
      (match List.length done with
       | O => ret (total_len (removelast done))
       | S prev => g0 <- grid_at prev ;; ret (total_len (removelast done) + grid_len g0)%Z
       end) (mkWorld r fs out) = (inr (total_len done), mkWorld r fs out)).
    { destruct done as [|d0 done'] eqn:Hd.
      - reflexivity.
      - destruct (@exists_last _ (d0 :: done')) as [front [gl Hl]]; [discriminate |].
        rewrite Hl in *. rewrite removelast_last, total_len_app.
        rewrite length_app, Nat.add_1_r.
        unfold grid_at, bind, get_self, lift, Py.index. cbn [self].
        rewrite Hgs, <- app_assoc. cbn [app]. rewrite nth_error_middle.
        unfold ret. unfold total_len at 3. simpl. now rewrite Z.add_0_r. }
    rewrite (bind_ok _ _ _ _ _ Hstart).
    assert (Hat : grid_at (List.length done) (mkWorld r fs out) = (inr g, mkWorld r fs out)).
    { unfold grid_at, bind, get_self, lift, Py.index. cbn [self].
      now rewrite Hgs, nth_error_middle. }
    rewrite (bind_ok _ _ _ _ _ Hat).
    unfold get_self at 1. unfold bind at 1. cbn [self].
    rewrite (bind_ok _ _ _ _ _ (setValuesFromFile_run g rf content _ source state _
                 (mkWorld r fs out) Hrf)).
    unfold bind at 1. unfold store_grid, modify_self. cbn [self disk stdout].
    rewrite Hgs, replace_nth_middle.
    set (g' := load_grid _ _ _ _ _ g).
    specialize (IH (done ++ [g']) (with_analysisGrids (done ++ g' :: rest) r) fs out Hrf).
    rewrite removelast_last, length_app, Nat.add_1_r in IH.
    rewrite IH by (cbn; now rewrite <- app_assoc).
    f_equal. f_equal.
    rewrite total_len_app, <- app_assoc. cbn [app].
    replace (total_len [g']) with (grid_len g)
      by (unfold total_len, grid_len; simpl; lia).
    destruct r; reflexivity.
Qed.

End ResultsFacts.

(** ** Source and state from the file name *)

Lemma index_neg_ok {A : Type} (l : list A) (k : nat) (d : A) :
  k <= List.length l -> 0 < k -> Py.index_neg l k = inr (nth (List.length l - k) l d).
Proof.
  intros Hk Hpos. unfold Py.index_neg.
  rewrite (proj2 (Nat.leb_le _ _) Hk).
  rewrite (nth_error_nth' l d) by lia. reflexivity.
Qed.

Lemma index_neg_short {A : Type} (l : list A) (k : nat) :
  List.length l < k -> Py.index_neg l k = inl (IndexError "list index out of range").
Proof.
  intros Hk. unfold Py.index_neg.
  now rewrite (proj2 (Nat.leb_gt _ _) Hk).
Qed.

Lemma source_and_state_ok (rf : string) :
  2 <= List.length (name_segments rf) ->
  source_and_state rf = inr (source_of rf, state_of rf).
Proof.
  intros H. unfold source_and_state, source_of, state_of.
  fold (name_segments rf).
  rewrite (index_neg_ok _ 2 EmptyString) by lia.
  rewrite (index_neg_ok _ 1 EmptyString) by lia.
  reflexivity.
Qed.

Lemma source_and_state_short (rf : string) :
  List.length (name_segments rf) < 2 ->
  source_and_state rf = inl (IndexError "list index out of range").
Proof.
  intros H. unfold source_and_state. now rewrite index_neg_short.
Qed.

Section ResultsRun.
Context {C : Collaborators}.

Lemma loadable_inv (fs : FS) (rf : string) :
  loadable fs rf = true ->
  fs rf = Some (content_of fs rf) /\ 2 <= List.length (name_segments rf).
Proof.
  unfold loadable, isfile, content_of. intros H.
  apply andb_prop in H as [Hf Hs]. apply Nat.leb_le in Hs.
  destruct (fs rf); [auto | discriminate].
Qed.

(** One loadable result file: the line on the console, then every grid
    loaded. *)
Lemma results_file_run (rf : string) (w : World) :
  loadable (disk w) rf = true ->
  results_file rf w = (inr tt, after_results w [rf]).
Proof.
  intros H. apply loadable_inv in H as [Hf Hs].
  destruct w as [r fs out]. cbn [disk] in *.
  unfold results_file. rewrite (source_and_state_ok _ Hs).
  unfold lift. rewrite bind_ret_l.
  unfold print, bind at 1. cbn [self disk stdout].
  unfold get_self, bind at 1. cbn [self].
  pose proof (results_grids_run rf (source_of rf) (state_of rf) _
                (analysisGrids r) [] r fs (out ++ [log_line rf]) Hf eq_refl) as Hrun.
  cbn [List.length removelast app] in Hrun.
  change (total_len []) with 0%Z in Hrun.
  unfold log_line in *. rewrite Hrun. reflexivity.
Qed.

Lemma results_file_short (rf : string) (w : World) :
  List.length (name_segments rf) < 2 ->
  results_file rf w = (inl (IndexError "list index out of range"), w).
Proof.
  intros H. unfold results_file. now rewrite (source_and_state_short _ H).
Qed.

Lemma after_results_nil (w : World) : after_results w [] = w.
Proof.
  destruct w as [r fs out]. unfold after_results, merged. cbn.
  now rewrite app_nil_r, with_analysisGrids_same.
Qed.

Lemma after_results_cons (w : World) (rf : string) (rfs : list string) :
  after_results (after_results w [rf]) rfs = after_results w (rf :: rfs).
Proof.
  destruct w as [r fs out]. unfold after_results, merged. cbn.
  rewrite <- app_assoc. cbn. destruct r; reflexivity.
Qed.

Lemma after_results_app (w : World) (a b : list string) :
  after_results (after_results w a) b = after_results w (a ++ b).
Proof.
  revert w. induction a as [|x a IH]; intros w.
  - now rewrite after_results_nil.
  - cbn [app]. rewrite <- (after_results_cons w x a), IH. apply after_results_cons.
Qed.

(** The outer loop over loadable result files. *)
Lemma for_each_results_run (rfs : list string) :
  forall w, forallb (loadable (disk w)) rfs = true ->
            for_each rfs results_file w = (inr tt, after_results w rfs).
Proof.
  induction rfs as [|rf rfs IH]; intros w H.
  - now rewrite after_results_nil.
  - cbn [forallb] in H. apply andb_prop in H as [H1 H2].
    cbn [for_each]. rewrite (bind_ok _ _ _ _ _ (results_file_run rf w H1)).
    rewrite IH by exact H2. now rewrite after_results_cons.
Qed.

(** The outer loop stops at the first file whose name has fewer than two
    segments, with what the files before it have loaded. *)
Lemma for_each_results_short (pre post : list string) (rf : string) (w : World) :
  forallb (loadable (disk w)) pre = true ->
  List.length (name_segments rf) < 2 ->
  for_each (pre ++ rf :: post) results_file w
  = (inl (IndexError "list index out of range"), after_results w pre).
Proof.
  revert w. induction pre as [|x pre IH]; intros w H Hs.
  - cbn [app for_each]. rewrite after_results_nil.
    now rewrite (bind_fail _ _ _ _ _ (results_file_short rf w Hs)).
  - cbn [forallb] in H. apply andb_prop in H as [H1 H2].
    cbn [app for_each]. rewrite (bind_ok _ _ _ _ _ (results_file_run x w H1)).
    rewrite IH by assumption. now rewrite after_results_cons.
Qed.

(** Whatever the other files are, a file with fewer than two segments in
    the list makes the loop raise. *)
Lemma for_each_results_raises (rfs : list string) (rf : string) :
  In rf rfs -> List.length (name_segments rf) < 2 ->
  forall w, exists e w', for_each rfs results_file w = (inl e, w').
Proof.
  intros Hin Hs. induction rfs as [|x rfs IH]; intros w; [contradiction |].
  cbn [for_each]. unfold bind at 1.
  destruct (results_file x w) as [[e | []] w1] eqn:Hx.
  - now exists e, w1.
  - destruct Hin as [-> | Hin].
    + rewrite (results_file_short rf w Hs) in Hx. discriminate.
    + apply (IH Hin).
Qed.

(** [results()] on a recipe that has been run and whose result files are
    loadable. *)
Lemma results_run (w : World) :
  _isCalculated (self w) = true ->
  forallb (loadable (disk w)) (_resultFiles (self w)) = true ->
  results w
  = (inr (merged (disk w) (_skyMatrix (self w)) (_resultFiles (self w))
            (analysisGrids (self w))),
     after_results w (_resultFiles (self w))).
Proof.
  intros Hc Hl. unfold results. unfold get_self at 1, bind at 1.
  rewrite Hc. unfold assert_. rewrite bind_ret_l.
  rewrite (bind_ok _ _ _ _ _ (for_each_results_run _ w Hl)).
  reflexivity.
Qed.

Lemma results_not_run (w : World) :
  _isCalculated (self w) = false ->
  results w = (inl (AssertionError not_run_message), w).
Proof.
  intros Hc. unfold results. unfold get_self at 1, bind at 1.
  rewrite Hc. reflexivity.
Qed.

(** Grid [k] after the merge: its points are untouched and it has one
    more block per result file, the newest first. *)
Lemma merged_nth (fs : FS) (sky : SkyMatrix) (rfs : list string) :
  forall (gs : list AnalysisGrid) (k : nat) (g : AnalysisGrid),
    nth_error gs k = Some g ->
    nth_error (merged fs sky rfs gs) k
    = Some (mkAnalysisGrid (grid_name g) (points g)
              (rev (map (entry_of fs sky gs k g) rfs) ++ loaded g)).
Proof.
  induction rfs as [|rf rfs IH]; intros gs k g H.
  - cbn. rewrite H. now destruct g.
  - unfold merged in *. cbn [fold_left].
    pose proof (load_from_nth (hoys sky) (source_of rf) (state_of rf)
                  (data_lines (content_of fs rf)) gs 0%Z k g H) as H1.
    fold (merged_file fs sky gs rf) in H1.
    rewrite (IH _ _ _ H1). cbn [grid_name points loaded load_grid].
    cbn [map rev]. rewrite <- app_assoc. cbn [app].
    do 3 f_equal.
    f_equal. apply map_ext. intros rf'. unfold entry_of. cbn [points].
    do 2 f_equal. apply offset_of_points. unfold merged_file.
    apply load_from_points.
Qed.

End ResultsRun.

(** ** Strings *)

Lemma str_app_assoc (a b c : string) : ((a ++ b) ++ c)%string = (a ++ (b ++ c))%string.
Proof. induction a as [|x a IH]; simpl; [reflexivity | now rewrite IH]. Qed.

Lemma str_app_nil_r (a : string) : (a ++ "")%string = a.
Proof. induction a as [|x a IH]; simpl; [reflexivity | now rewrite IH]. Qed.

Lemma str_length_app (a b : string) :
  String.length (a ++ b) = String.length a + String.length b.
Proof. induction a as [|x a IH]; simpl; [reflexivity | now rewrite IH]. Qed.

Lemma take_app (a b : string) : Py.take (String.length a) (a ++ b) = a.
Proof.
  unfold Py.take. induction a as [|x a IH]; simpl.
  - now destruct b.
  - now rewrite IH.
Qed.

(** [s[:-n]] removes the last [n] characters, whatever they are. *)
Lemma drop_last_app (n : nat) (stem last : string) :
  String.length last = n -> Py.drop_last n (stem ++ last) = stem.
Proof.
  intros H. unfold Py.drop_last. rewrite str_length_app, H.
  rewrite Nat.add_sub.
  apply take_app.
Qed.

Lemma split_go_nonempty (sep : string) (s : string) :
  forall cur skip, 1 <= List.length (Py.split_go sep s cur skip).
Proof.
  induction s as [|c s IH]; intros cur skip; cbn [Py.split_go].
  - simpl. lia.
  - destruct skip; [| apply IH].
    destruct (String.prefix sep (String c s)); [simpl; lia | apply IH].
Qed.

Lemma name_segments_nonempty (rf : string) : 1 <= List.length (name_segments rf).
Proof. apply split_go_nonempty. Qed.

(** A segment without a dot is read through. *)
Lemma split_go_no_dot (p rest cur : string) :
  no_dot p = true ->
  Py.split_go ".." (p ++ rest) cur 0 = Py.split_go ".." rest (cur ++ p) 0.
Proof.
  revert cur. induction p as [|c p IH]; intros cur H.
  - simpl. now rewrite str_app_nil_r.
  - simpl in H. apply andb_prop in H as [Hc Hp].
    cbn [String.append Py.split_go String.prefix].
    destruct (ascii_dec "." c) as [<- | _]; [discriminate |].
    rewrite (IH _ Hp), str_app_assoc. reflexivity.
Qed.

(** The separator closes the segment. *)
Lemma split_go_sep (rest cur : string) :
  Py.split_go ".." (".." ++ rest) cur 0 = cur :: Py.split_go ".." rest "" 0.
Proof.
  cbn [String.append Py.split_go String.prefix].
  destruct (ascii_dec "." ".") as [_ | n]; [| now elim n].
  destruct rest; reflexivity.
Qed.

Lemma join_cons (sep x y : string) (l : list string) :
  Py.join sep (x :: y :: l) = (x ++ sep ++ Py.join sep (y :: l))%string.
Proof. reflexivity. Qed.

(** Splitting the name [pre..source..state] followed by [tail], where
    [tail] is empty or a lone dot: the segments come back, and [tail]
    stays on the last one. *)
Lemma split_joined (pre : list string) (source state tail : string) :
  forallb no_dot pre = true -> no_dot source = true -> no_dot state = true ->
  tail = "" \/ tail = "." ->
  Py.split (Py.join ".." (pre ++ [source; state]) ++ tail) ".."
  = pre ++ [source; (state ++ tail)%string].
Proof.
  intros Hpre Hs Hst Htail. unfold Py.split.
  induction pre as [|x pre IH].
  - cbn [app]. rewrite join_cons. cbn [Py.join String.concat].
    rewrite !str_app_assoc. rewrite split_go_no_dot by assumption.
    rewrite split_go_sep. rewrite split_go_no_dot by assumption.
    cbn [String.append]. destruct Htail as [-> | ->]; cbn; now rewrite ?str_app_nil_r.
  - cbn [forallb] in Hpre. apply andb_prop in Hpre as [Hx Hpre].
    cbn [app]. destruct (pre ++ [source; state]) as [|y l] eqn:E.
    + destruct pre; discriminate.
    + rewrite join_cons, !str_app_assoc.
      rewrite split_go_no_dot by assumption. rewrite split_go_sep.
      cbn [String.append]. f_equal. rewrite <- E in *. apply IH, Hpre.
Qed.

(** The segments of a string, joined by the separator, give the string
    back: [split] cuts at separators and nowhere else. *)
Lemma join_split_go (n : nat) :
  forall s cur, String.length s <= n ->
                Py.join ".." (Py.split_go ".." s cur 0) = (cur ++ s)%string.
Proof.
  induction n as [|n IH]; intros s cur Hn.
  - destruct s; [| simpl in Hn; lia]. simpl. now rewrite str_app_nil_r.
  - destruct s as [|c s]; [simpl; now rewrite str_app_nil_r |].
    cbn [Py.split_go]. destruct (String.prefix ".." (String c s)) eqn:E.
    + cbn [String.prefix] in E. revert E.
      destruct (ascii_dec "." c) as [<- |]; [| discriminate].
      destruct s as [|c' s]; [discriminate |].
      cbn [String.prefix].
      destruct (ascii_dec "." c') as [<- |]; [intros _ | discriminate].
      cbn [String.length Nat.sub Py.split_go].
      pose proof (split_go_nonempty ".." s "" 0) as Hne.
      pose proof (IH s ""%string) as Hs.
      destruct (Py.split_go ".." s "" 0) as [|x l]; [simpl in Hne; lia |].
      rewrite join_cons, Hs by (simpl in Hn; lia). reflexivity.
    + rewrite IH by (simpl in Hn; lia). now rewrite str_app_assoc.
Qed.

Lemma join_split (s : string) : Py.join ".." (Py.split s "..") = s.
Proof. unfold Py.split. now rewrite (join_split_go (String.length s)). Qed.

(** A list with at least two elements ends with its last two. *)
Lemma last_two {A : Type} (l : list A) (d : A) :
  2 <= List.length l ->
  exists pre, l = pre ++ [nth (List.length l - 2) l d; nth (List.length l - 1) l d].
Proof.
  intros H.
  destruct (@exists_last _ l) as [l1 [b E1]]; [destruct l; [simpl in H; lia | discriminate] |].
  subst l. rewrite length_app in H. simpl in H.
  destruct (@exists_last _ l1) as [pre [a E2]]; [destruct l1; [simpl in H; lia | discriminate] |].
  subst l1. exists pre.
  rewrite !length_app. simpl.
  replace (List.length pre + 1 + 1 - 2) with (List.length pre) by lia.
  replace (List.length pre + 1 + 1 - 1) with (List.length (pre ++ [a])) by (rewrite length_app; simpl; lia).
  rewrite nth_middle. rewrite <- app_assoc. cbn [app].
  rewrite nth_middle. reflexivity.
Qed.

(** ** The claims *)

(** C1.  For every recipe, reading [totalRunsCount] returns one plus the
    sum of the state counts of its window groups and leaves the recipe,
    the disk and the console as they were. *)
Theorem totalRunsCount_one_plus_sum (w : World) :
  totalRunsCount w
  = (inr (1 + fold_right Z.add 0 (map stateCount (windowGroups (self w))))%Z, w).
Proof.
  unfold totalRunsCount, bind, get_self, ret, totalRunsCount_of.
  rewrite py_sum_fold_right. do 2 f_equal. lia.
Qed.

(** C5.  Setting the simulation type to a value that [int] reads as 1
    (radiation) fails on the assertion when the sky is not climate-based,
    and leaves the recipe untouched; when the sky is climate-based it
    succeeds, and the type recorded on the recipe and the one recorded on
    the sky are both 1.  After any successful set the sky's recorded type
    equals the recipe's, and is 0, 1 or 2. *)
Theorem set_simulationType_radiation (w : World) :
  (forall value,
      py_int value = inr 1%Z ->
      isClimateBased (_skyMatrix (self w)) = false ->
      set_simulationType value w
      = (inl (AssertionError "The sky for radition analysis should be climate-based."), w))
  /\ (forall value,
         py_int value = inr 1%Z ->
         isClimateBased (_skyMatrix (self w)) = true ->
         exists w', set_simulationType value w = (inr tt, w')
                    /\ _simType (self w') = 1%Z
                    /\ skyType (_skyMatrix (self w')) = 1%Z
                    /\ isClimateBased (_skyMatrix (self w')) = true)
  /\ (forall value w',
         set_simulationType value w = (inr tt, w') ->
         skyType (_skyMatrix (self w')) = _simType (self w')
         /\ (0 <= _simType (self w') <= 2)%Z).
Proof.
  destruct w as [r fs out]. cbn [self].
  split; [| split].
  - intros value Hv H. unfold set_simulationType. rewrite Hv. cbn.
    unfold bind, get_self, assert_. cbn. rewrite H. reflexivity.
  - intros value Hv H. eexists. unfold set_simulationType. rewrite Hv. cbn.
    unfold bind, get_self, assert_. cbn. rewrite H. cbn.
    split; [reflexivity |]. cbn. auto.
  - intros value w'. unfold set_simulationType.
    unfold try_except_TypeError.
    set (v := match py_int value with
              | inr a => ret a
              | inl (TypeError _) => ret 0%Z
              | inl e => raise e
              end).
    assert (Hv : (exists z, v = ret z) \/ (exists e, v = raise e)).
    { subst v. destruct (py_int value) as [[] | z]; eauto. }
    destruct Hv as [[z ->] | [e ->]]; [| rewrite bind_raise; discriminate].
    rewrite bind_ret_l.
    unfold assert_ at 1.
    destruct (Z.leb 0 z && Z.leb z 2) eqn:Hz; [| rewrite bind_raise; discriminate].
    apply andb_prop in Hz as [Hz1 Hz2]. apply Z.leb_le in Hz1, Hz2.
    rewrite bind_ret_l.
    destruct (Z.eqb z 1).
    + unfold bind, get_self, assert_. cbn.
      destruct (isClimateBased (_skyMatrix r)); cbn; [| discriminate].
      intros H. injection H as <-. cbn. split; [reflexivity | lia].
    + unfold bind. cbn. intros H. injection H as <-. cbn. split; [reflexivity | lia].
Qed.

Lemma set_simulationType_radiation_witness :
  set_simulationType (PyInt 1) (Demo.world Demo.recipe_not_climate Demo.no_files)
  = (inl (AssertionError "The sky for radition analysis should be climate-based."),
     Demo.world Demo.recipe_not_climate Demo.no_files)
  /\ (exists w', set_simulationType (PyBool true) (Demo.world Demo.recipe Demo.no_files)
                 = (inr tt, w')
                 /\ _simType (self w') = 1%Z
                 /\ skyType (_skyMatrix (self w')) = 1%Z
                 /\ isClimateBased (_skyMatrix (self w')) = true)
  /\ (skyType (_skyMatrix (self (snd (set_simulationType (PyInt 2)
                                        (Demo.world Demo.recipe Demo.no_files)))))
      = _simType (self (snd (set_simulationType (PyInt 2)
                               (Demo.world Demo.recipe Demo.no_files))))
      /\ (0 <= _simType (self (snd (set_simulationType (PyInt 2)
                                      (Demo.world Demo.recipe Demo.no_files)))) <= 2)%Z).
Proof.
  split; [| split].
  - apply (proj1 (set_simulationType_radiation
                    (Demo.world Demo.recipe_not_climate Demo.no_files)) (PyInt 1));
      reflexivity.
  - apply (proj1 (proj2 (set_simulationType_radiation
                           (Demo.world Demo.recipe Demo.no_files))) (PyBool true));
      reflexivity.
  - apply (proj2 (proj2 (set_simulationType_radiation
                           (Demo.world Demo.recipe Demo.no_files))) (PyInt 2)).
    reflexivity.
Defined.

Section ResultsClaims.
Context {C : Collaborators}.

Lemma lines_from_exact (data : list string) (start : Z) (n : nat) :
  (0 <= start)%Z -> Z.to_nat start + n <= List.length data ->
  List.length (lines_from data start n) = n
  /\ forall i, i < n ->
               nth_error (lines_from data start n) i = nth_error data (Z.to_nat start + i).
Proof.
  intros _ H. unfold lines_from. split.
  - rewrite length_firstn, length_skipn. lia.
  - intros i Hi. rewrite nth_error_firstn.
    rewrite (proj2 (Nat.ltb_lt _ _) Hi). apply nth_error_skipn.
Qed.

Lemma offset_of_nonneg (gs : list AnalysisGrid) (k : nat) : (0 <= offset_of gs k)%Z.
Proof. apply total_len_nonneg. Qed.

Lemma offset_of_bound (gs : list AnalysisGrid) :
  forall k g, nth_error gs k = Some g ->
              (offset_of gs k + grid_len g <= total_len gs)%Z.
Proof.
  unfold offset_of, total_len.
  induction gs as [|x gs IH]; intros [|k] g H; try discriminate.
  - simpl in H. injection H as ->. simpl.
    pose proof (total_len_nonneg gs) as Hn. unfold total_len in Hn. lia.
  - simpl in H. specialize (IH k g H). simpl. lia.
Qed.

Lemma merged_length (fs : FS) (sky : SkyMatrix) (rfs : list string) :
  forall gs, List.length (merged fs sky rfs gs) = List.length gs.
Proof.
  unfold merged. induction rfs as [|rf rfs IH]; intros gs; [reflexivity |].
  cbn [fold_left]. rewrite IH. apply load_from_length.
Qed.

(** C8.  [results()] on a recipe whose calculated flag is not set fails on
    the opening assertion, with the message that the recipe has not been
    run, and changes nothing.  With the flag set it goes on to the merge
    loop and returns [self.analysisGrids]; when the result files are
    loadable the value returned is the list of merged grids, which is
    also the list the recipe then holds. *)
Theorem results_requires_calculated (w : World) :
  (_isCalculated (self w) = false ->
   results w = (inl (AssertionError not_run_message), w))
  /\ (_isCalculated (self w) = true ->
      results w
      = (for_each (_resultFiles (self w)) results_file ;;
         r <- get_self ;; ret (analysisGrids r)) w)
  /\ (_isCalculated (self w) = true ->
      forallb (loadable (disk w)) (_resultFiles (self w)) = true ->
      exists w', results w = (inr (analysisGrids (self w')), w')
                 /\ w' = after_results w (_resultFiles (self w))).
Proof.
  split; [| split].
  - apply results_not_run.
  - intros Hc. unfold results. unfold get_self at 1, bind at 1.
    rewrite Hc. reflexivity.
  - intros Hc Hl. eexists. split; [| reflexivity].
    now rewrite (results_run w Hc Hl).
Qed.

(** C4.  On a recipe that has been run and whose result files are
    loadable, [results()] returns the grids in their declared order, and
    grid [k] has, for each result file, a block of source and state of
    that file whose rows are the [len(grid k)] lines of the file starting
    at the line whose number is the sum of the point counts of the grids
    before [k]; its points are unchanged.  For the second grid that line
    is the size of the first grid.  When the file has those lines,
    the block has exactly [len(grid k)] rows, row [i] being line
    [offset + i] of the file. *)
Theorem results_offset_law (w : World) :
  _isCalculated (self w) = true ->
  forallb (loadable (disk w)) (_resultFiles (self w)) = true ->
  exists gs',
    fst (results w) = inr gs'
    /\ List.length gs' = List.length (analysisGrids (self w))
    /\ forall k g,
        nth_error (analysisGrids (self w)) k = Some g ->
        exists g',
          nth_error gs' k = Some g'
          /\ points g' = points g
          /\ forall rf,
              In rf (_resultFiles (self w)) ->
              let data := data_lines (content_of (disk w) rf) in
              let start := offset_of (analysisGrids (self w)) k in
              In (mkResultEntry (source_of rf) (state_of rf) (hoys (_skyMatrix (self w)))
                    (lines_from data start (List.length (points g))))
                 (loaded g')
              /\ start = fold_right Z.add 0%Z
                           (map grid_len (firstn k (analysisGrids (self w))))
              /\ (forall g0, k = 1 -> nth_error (analysisGrids (self w)) 0 = Some g0 ->
                             start = grid_len g0)
              /\ (Z.to_nat start + List.length (points g) <= List.length data ->
                  List.length (lines_from data start (List.length (points g)))
                  = List.length (points g)
                  /\ forall i, i < List.length (points g) ->
                               nth_error (lines_from data start (List.length (points g))) i
                               = nth_error data (Z.to_nat start + i)).
Proof.
  intros Hc Hl. rewrite (results_run w Hc Hl). cbn [fst].
  eexists. split; [reflexivity |]. split.
  - apply merged_length.
  - intros k g Hk. eexists. split; [apply (merged_nth _ _ _ _ _ _ Hk) |].
    cbn [points loaded]. split; [reflexivity |].
    intros rf Hin. cbv zeta. split; [| split; [| split]].
    + apply in_or_app. left. apply -> in_rev.
      apply (in_map (entry_of (disk w) (_skyMatrix (self w)) (analysisGrids (self w)) k g)) in Hin.
      exact Hin.
    + reflexivity.
    + intros g0 -> H0. rewrite (offset_of_S _ _ _ H0). reflexivity.
    + intros Hlen. apply lines_from_exact; [apply offset_of_nonneg | exact Hlen].
Qed.

End ResultsClaims.

Section NameClaims.
Context {C : Collaborators}.

(** C6.  A result file whose name, once its last four characters are
    removed, has fewer than two segments between double dots gives no
    source and state: indexing the segments raises.  Wherever such a file
    stands in [_resultFiles], [results()] raises; reached after loadable
    files, it raises the index error with only those earlier files
    loaded and announced, so nothing is recorded for it.  A name with at
    least two segments gives the last two of them as source and state. *)
Theorem results_malformed_name (rf : string) :
  (List.length (name_segments rf) < 2 ->
   source_and_state rf = inl (IndexError "list index out of range")
   /\ (forall w, In rf (_resultFiles (self w)) ->
                 exists e w', results w = (inl e, w'))
   /\ (forall w pre post,
          _isCalculated (self w) = true ->
          _resultFiles (self w) = pre ++ rf :: post ->
          forallb (loadable (disk w)) pre = true ->
          results w = (inl (IndexError "list index out of range"), after_results w pre)))
  /\ (2 <= List.length (name_segments rf) ->
      exists pre source state,
        name_segments rf = pre ++ [source; state]
        /\ source_and_state rf = inr (source, state)).
Proof.
  split.
  - intros Hs. split; [now apply source_and_state_short | split].
    + intros w Hin. destruct (_isCalculated (self w)) eqn:Hc.
      * destruct (for_each_results_raises _ rf Hin Hs w) as [e [w' H]].
        exists e, w'. unfold results. unfold get_self at 1, bind at 1.
        rewrite Hc. unfold assert_. rewrite bind_ret_l.
        now rewrite (bind_fail _ _ _ _ _ H).
      * eexists _, _. now apply results_not_run.
    + intros w pre post Hc Hfiles Hpre.
      unfold results. unfold get_self at 1, bind at 1.
      rewrite Hc. unfold assert_. rewrite bind_ret_l, Hfiles.
      now rewrite (bind_fail _ _ _ _ _ (for_each_results_short pre post rf w Hpre Hs)).
  - intros Hs. destruct (last_two (name_segments rf) EmptyString Hs) as [pre E].
    exists pre, (source_of rf), (state_of rf). split.
    + exact E.
    + now apply source_and_state_ok.
Qed.

(** C7 (as the code has it).  [results()] makes no check of the number of
    data lines of a result file against the sizes of the grids.  On a
    recipe that has been run, with loadable result files that each have at
    least as many data lines as the grids have points, more included, it
    returns normally; each grid has, for each file, exactly [len(grid)]
    rows, taken at its running offset, and the rows of all grids together
    are the first [sum of sizes] lines of the file: the lines after them
    are not loaded. *)
Theorem results_surplus_lines_ignored (w : World) :
  _isCalculated (self w) = true ->
  forallb (loadable (disk w)) (_resultFiles (self w)) = true ->
  (forall rf, In rf (_resultFiles (self w)) ->
              (total_len (analysisGrids (self w))
               <= Z.of_nat (List.length (data_lines (content_of (disk w) rf))))%Z) ->
  exists gs',
    fst (results w) = inr gs'
    /\ forall k g,
        nth_error (analysisGrids (self w)) k = Some g ->
        exists g',
          nth_error gs' k = Some g'
          /\ forall rf,
              In rf (_resultFiles (self w)) ->
              exists rows,
                In (mkResultEntry (source_of rf) (state_of rf) (hoys (_skyMatrix (self w))) rows)
                   (loaded g')
                /\ List.length rows = List.length (points g)
                /\ forall i, i < List.length (points g) ->
                     nth_error rows i
                     = nth_error (data_lines (content_of (disk w) rf))
                         (Z.to_nat (offset_of (analysisGrids (self w)) k) + i)
                     /\ (Z.of_nat (Z.to_nat (offset_of (analysisGrids (self w)) k) + i)
                         < total_len (analysisGrids (self w)))%Z.
Proof.
  intros Hc Hl Hlen. rewrite (results_run w Hc Hl). cbn [fst].
  eexists. split; [reflexivity |].
  intros k g Hk. eexists. split; [apply (merged_nth _ _ _ _ _ _ Hk) |].
  cbn [loaded]. intros rf Hin.
  exists (lines_from (data_lines (content_of (disk w) rf))
            (offset_of (analysisGrids (self w)) k) (List.length (points g))).
  split.
  - apply in_or_app. left. apply -> in_rev.
    apply (in_map (entry_of (disk w) (_skyMatrix (self w)) (analysisGrids (self w)) k g))
      in Hin.
    exact Hin.
  - pose proof (offset_of_bound _ _ _ Hk) as Hb.
    pose proof (offset_of_nonneg (analysisGrids (self w)) k) as Hn.
    specialize (Hlen rf Hin). unfold grid_len in Hb.
    destruct (lines_from_exact (data_lines (content_of (disk w) rf))
                (offset_of (analysisGrids (self w)) k) (List.length (points g)) Hn)
      as [Hl1 Hl2]; [lia |].
    split; [exact Hl1 |]. intros i Hi. split; [now apply Hl2 | lia].
Qed.

Lemma no_dot_app (a b : string) :
  no_dot (a ++ b) = no_dot a && no_dot b.
Proof.
  induction a as [|c a IH]; cbn; [reflexivity |].
  rewrite IH. now rewrite andb_assoc.
Qed.

Lemma no_dot_no_double_dot (s : string) : no_dot s = true -> has_double_dot s = false.
Proof.
  induction s as [|c s IH]; intros H; [reflexivity |].
  cbn [no_dot] in H. apply andb_prop in H as [Hc Hs].
  cbn [has_double_dot String.prefix]. rewrite (IH Hs).
  destruct (ascii_dec "." c) as [<- | _]; [discriminate | reflexivity].
Qed.

(** A string without a double dot is one segment. *)
Lemma split_go_no_double_dot_one (s : string) :
  forall cur, has_double_dot s = false ->
              Py.split_go ".." s cur 0 = [(cur ++ s)%string].
Proof.
  induction s as [|c s IH]; intros cur H.
  - cbn. now rewrite str_app_nil_r.
  - cbn [has_double_dot] in H. apply orb_false_elim in H as [Hp Hs].
    cbn [Py.split_go]. rewrite Hp, (IH _ Hs), str_app_assoc. reflexivity.
Qed.

(** A dot and a dot-free rest close the last segment. *)
Lemma split_go_dot_rest (e : string) :
  no_dot e = true ->
  forall cur, Py.split_go ".." ("." ++ e) cur 0 = [(cur ++ "." ++ e)%string].
Proof.
  intros He cur. apply split_go_no_double_dot_one.
  cbn [String.append has_double_dot String.prefix].
  rewrite (no_dot_no_double_dot e He).
  destruct (ascii_dec "." ".") as [_ | n]; [| now elim n].
  destruct e as [|c e]; [reflexivity |].
  cbn [no_dot] in He. apply andb_prop in He as [Hc _].
  cbn [String.prefix]. destruct (ascii_dec "." c) as [<- | _]; [discriminate | reflexivity].
Qed.

(** [split_joined] for any [tail] that stays in one piece. *)
Lemma split_joined_tail (pre : list string) (source state tail : string) :
  forallb no_dot pre = true -> no_dot source = true -> no_dot state = true ->
  (forall cur, Py.split_go ".." tail cur 0 = [(cur ++ tail)%string]) ->
  Py.split (Py.join ".." (pre ++ [source; state]) ++ tail) ".."
  = pre ++ [source; (state ++ tail)%string].
Proof.
  intros Hpre Hs Hst Htail. unfold Py.split.
  induction pre as [|x pre IH].
  - cbn [app]. rewrite join_cons. cbn [Py.join String.concat].
    rewrite !str_app_assoc. rewrite split_go_no_dot by assumption.
    rewrite split_go_sep. rewrite split_go_no_dot by assumption.
    cbn [String.append]. now rewrite Htail.
  - cbn [forallb] in Hpre. apply andb_prop in Hpre as [Hx Hpre].
    cbn [app]. destruct (pre ++ [source; state]) as [|y l] eqn:E.
    + destruct pre; discriminate.
    + rewrite join_cons, !str_app_assoc.
      rewrite split_go_no_dot by assumption. rewrite split_go_sep.
      cbn [String.append]. f_equal. rewrite <- E in *. apply IH, Hpre.
Qed.

Lemma join_last_app (l : list string) (a b : string) :
  Py.join ".." (l ++ [(a ++ b)%string]) = (Py.join ".." (l ++ [a]) ++ b)%string.
Proof.
  induction l as [|x l IH]; [reflexivity |].
  cbn [app]. destruct l as [|y l].
  - cbn. now rewrite !str_app_assoc.
  - cbn [app] in *. rewrite !join_cons, IH. now rewrite !str_app_assoc.
Qed.

Lemma join_snoc (l : list string) (a b : string) :
  Py.join ".." (l ++ [a; b]) = (Py.join ".." (l ++ [a]) ++ ".." ++ b)%string.
Proof.
  induction l as [|x l IH]; [reflexivity |].
  cbn [app]. destruct l as [|y l].
  - cbn. now rewrite !str_app_assoc.
  - cbn [app] in *. rewrite !join_cons, IH. now rewrite !str_app_assoc.
Qed.

(** The last [d] characters of a string. *)
Lemma str_split_end (d : nat) (s : string) :
  d <= String.length s -> exists a b, s = (a ++ b)%string /\ String.length b = d.
Proof.
  induction s as [|c s IH]; intros H.
  - exists EmptyString, EmptyString. cbn in *. split; [reflexivity | lia].
  - destruct (Nat.eq_dec d (String.length (String c s))) as [-> | Hn].
    + exists EmptyString, (String c s). now split.
    + destruct IH as [a [b [E Hb]]]; [cbn in *; lia |].
      exists (String c a), b. split; [cbn; now rewrite E | exact Hb].
Qed.

Lemma source_and_state_of_segments (rf : string) (pre : list string) (a b : string) :
  name_segments rf = pre ++ [a; b] -> source_and_state rf = inr (a, b).
Proof.
  intros Hn.
  assert (H2 : 2 <= List.length (name_segments rf))
    by (rewrite Hn, length_app; simpl; lia).
  rewrite (source_and_state_ok _ H2). unfold source_of, state_of.
  fold (name_segments rf). rewrite Hn, length_app. cbn [List.length].
  replace (List.length pre + 2 - 2) with (List.length pre) by lia.
  replace (List.length pre + 2 - 1) with (List.length (pre ++ [a]))
    by (rewrite length_app; simpl; lia).
  rewrite nth_middle.
  change (pre ++ [a; b]) with (pre ++ [a] ++ [b]).
  rewrite app_assoc, nth_middle. reflexivity.
Qed.

(** With an extension of one, two, four or more characters the state of
    a name [pre..source..state.ext] is not read back. *)
Lemma source_and_state_other_extension (rf : string) (pre : list string)
      (source state ext : string) :
  forallb no_dot pre = true -> no_dot source = true -> no_dot state = true ->
  no_dot ext = true -> state <> EmptyString ->
  OsPath.split_tail rf = (Py.join ".." (pre ++ [source; state]) ++ "." ++ ext)%string ->
  1 <= String.length ext -> String.length ext <> 3 ->
  source_and_state rf <> inr (source, state).
Proof.
  intros Hpre Hs Hst He Hne Ht Hk1 Hk3.
  destruct (Nat.le_gt_cases 4 (String.length ext)) as [H4 | H4].
  - (* four characters or more: the dot and the rest stay on the state *)
    destruct (str_split_end 4 ext H4) as [e1 [e2 [-> Hl]]].
    rewrite no_dot_app in He. apply andb_prop in He as [He1 _].
    assert (Hn : name_segments rf = pre ++ [source; (state ++ "." ++ e1)%string]).
    { unfold name_segments. rewrite Ht.
      replace (Py.join ".." (pre ++ [source; state]) ++ "." ++ e1 ++ e2)%string
        with ((Py.join ".." (pre ++ [source; state]) ++ "." ++ e1) ++ e2)%string
        by (now rewrite !str_app_assoc).
      rewrite (drop_last_app 4 _ _ Hl).
      apply split_joined_tail; try assumption. now apply split_go_dot_rest. }
    rewrite (source_and_state_of_segments _ _ _ _ Hn). intros E. injection E as E.
    apply (f_equal String.length) in E. rewrite str_length_app in E. cbn in E. lia.
  - (* one or two characters: the end of the state is removed *)
    destruct (Nat.le_gt_cases (3 - String.length ext) (String.length state)) as [Hd | Hd].
    + destruct (str_split_end _ state Hd) as [s0 [t [-> Hl]]].
      rewrite no_dot_app in Hst. apply andb_prop in Hst as [Hs0 _].
      assert (Hn : name_segments rf = pre ++ [source; s0]).
      { unfold name_segments. rewrite Ht.
        change (pre ++ [source; (s0 ++ t)%string])
          with (pre ++ [source] ++ [(s0 ++ t)%string]).
        rewrite app_assoc, join_last_app, <- app_assoc. cbn [app].
        rewrite str_app_assoc.
        rewrite (drop_last_app 4 _ (t ++ "." ++ ext)%string)
          by (rewrite str_length_app; cbn; lia).
        rewrite <- (str_app_nil_r (Py.join ".." (pre ++ [source; s0]))).
        rewrite <- (str_app_nil_r s0) at 2.
        apply split_joined; try assumption. now left. }
      rewrite (source_and_state_of_segments _ _ _ _ Hn). intros E. injection E as E.
      apply (f_equal String.length) in E. rewrite str_length_app in E. lia.
    + (* a one-character state and a one-character extension *)
      assert (Hls : String.length state = 1).
      { destruct state; [now elim Hne | cbn [String.length] in *; lia]. }
      assert (Hle : String.length ext = 1) by lia.
      assert (Hstem : Py.drop_last 4 (OsPath.split_tail rf)
                      = (Py.join ".." (pre ++ [source]) ++ ".")%string).
      { rewrite Ht, join_snoc.
        replace ((Py.join ".." (pre ++ [source]) ++ ".." ++ state) ++ "." ++ ext)%string
          with ((Py.join ".." (pre ++ [source]) ++ ".") ++ ("." ++ state ++ "." ++ ext))%string
          by (rewrite !str_app_assoc; reflexivity).
        apply drop_last_app. cbn. rewrite str_length_app. cbn. lia. }
      destruct pre as [|q0 pre0] eqn:Epre.
      * assert (H1 : List.length (name_segments rf) < 2).
        { unfold name_segments, Py.split. rewrite Hstem. cbn [app Py.join String.concat].
          rewrite split_go_no_dot by assumption.
          cbn. lia. }
        rewrite (source_and_state_short _ H1). discriminate.
      * rewrite <- Epre in *.
        destruct (@exists_last _ pre) as [pre' [q Eq]]; [rewrite Epre; discriminate |].
        rewrite Eq in Hpre. rewrite forallb_app in Hpre.
        apply andb_prop in Hpre as [Hpre' Hq]. cbn [forallb] in Hq.
        apply andb_prop in Hq as [Hq _].
        assert (Hn : name_segments rf = pre' ++ [q; (source ++ ".")%string]).
        { unfold name_segments. rewrite Hstem, Eq, <- app_assoc. cbn [app].
          apply split_joined; try assumption. now right. }
        rewrite (source_and_state_of_segments _ _ _ _ Hn). intros E. injection E as _ E.
        rewrite <- E in Hst. rewrite no_dot_app in Hst. cbn in Hst.
        now rewrite andb_false_r in Hst.
Qed.

(** C10.  [results()] takes the part of the path after the last slash,
    removes its last four characters whatever they are, cuts what is left
    at every double dot, and takes the last two pieces as source and
    state: these are the source and the state of the block it loads on
    every grid and the ones it prints.  So a name [pre..source..state.ext]
    with dot-free pieces and a three-character extension gives back
    [source] and [state], and [results()] loads the file under them.
    With an extension of any other length, one character or more, the
    state is not read back (with four characters the dot stays on it);
    and without a double dot in what is left of the name, nothing is
    read at all. *)
Theorem source_and_state_from_name (rf : string) :
  (forall stem last4,
      OsPath.split_tail rf = (stem ++ last4)%string -> String.length last4 = 4 ->
      name_segments rf = Py.split stem ".."
      /\ Py.join ".." (name_segments rf) = stem)
  /\ source_and_state rf
     = match rev (name_segments rf) with
       | state :: source :: _ => inr (source, state)
       | _ => inl (IndexError "list index out of range")
       end
  /\ (forall pre source state ext,
         forallb no_dot pre = true -> no_dot source = true -> no_dot state = true ->
         OsPath.split_tail rf
         = (Py.join ".." (pre ++ [source; state]) ++ "." ++ ext)%string ->
         (String.length ext = 3 -> source_and_state rf = inr (source, state))
         /\ (String.length ext = 4 -> source_and_state rf = inr (source, (state ++ ".")%string)))
  /\ (forall w source state,
         source_and_state rf = inr (source, state) ->
         _isCalculated (self w) = true ->
         forallb (loadable (disk w)) (_resultFiles (self w)) = true ->
         In rf (_resultFiles (self w)) ->
         fst (results w) = inr (analysisGrids (self (snd (results w))))
         /\ In ("loading restults for " ++ source ++ "::" ++ state ++ " from " ++ rf)%string
              (stdout (snd (results w)))
         /\ forall k g,
             nth_error (analysisGrids (self w)) k = Some g ->
             exists g' rows,
               nth_error (analysisGrids (self (snd (results w)))) k = Some g'
               /\ In (mkResultEntry source state (hoys (_skyMatrix (self w))) rows)
                    (loaded g'))
  /\ (forall pre source state ext,
         forallb no_dot pre = true -> no_dot source = true -> no_dot state = true ->
         no_dot ext = true -> state <> EmptyString ->
         OsPath.split_tail rf
         = (Py.join ".." (pre ++ [source; state]) ++ "." ++ ext)%string ->
         1 <= String.length ext -> String.length ext <> 3 ->
         source_and_state rf <> inr (source, state))
  /\ (has_double_dot (Py.drop_last 4 (OsPath.split_tail rf)) = false ->
      source_and_state rf = inl (IndexError "list index out of range")).
Proof.
  split; [| split; [| split; [| split; [| split]]]].
  - intros stem last4 Ht Hl. unfold name_segments. rewrite Ht, (drop_last_app 4 _ _ Hl).
    split; [reflexivity | apply join_split].
  - destruct (Nat.le_gt_cases 2 (List.length (name_segments rf))) as [H | H].
    + rewrite (source_and_state_ok _ H).
      destruct (last_two (name_segments rf) EmptyString H) as [pre E].
      rewrite E at 1. rewrite rev_app_distr. reflexivity.
    + rewrite (source_and_state_short _ H).
      pose proof (name_segments_nonempty rf) as Hne.
      destruct (name_segments rf) as [|a [|b l]]; simpl in *; try lia. reflexivity.
  - intros pre source state ext Hpre Hs Hst Ht.
    assert (Hseg : forall tail last4,
               ("." ++ ext)%string = (tail ++ last4)%string -> String.length last4 = 4 ->
               tail = ""%string \/ tail = "."%string ->
               source_and_state rf = inr (source, (state ++ tail)%string)).
    { intros tail last4 E Hl Htail.
      apply (source_and_state_of_segments rf pre).
      unfold name_segments. rewrite Ht, E, <- str_app_assoc, (drop_last_app 4 _ _ Hl).
      now apply split_joined. }
    split; intros Hl.
    + rewrite <- (str_app_nil_r state).
      apply (Hseg ""%string ("." ++ ext)%string); [reflexivity | simpl; lia | now left].
    + apply (Hseg "."%string ext); [reflexivity | exact Hl | now right].
  - intros w source state Hss Hc Hl Hin.
    pose proof (loadable_inv _ _ (proj1 (forallb_forall _ _) Hl rf Hin)) as [_ H2].
    rewrite (source_and_state_ok _ H2) in Hss. injection Hss as Hso Hst.
    rewrite (results_run w Hc Hl). cbn [fst snd].
    unfold after_results. cbn [self stdout analysisGrids with_analysisGrids].
    split; [reflexivity |]. split.
    + apply in_or_app. right. apply in_map_iff. exists rf. split; [| exact Hin].
      unfold log_line. now rewrite Hso, Hst.
    + intros k g Hk. eexists. eexists. split.
      * apply (merged_nth _ _ _ _ _ _ Hk).
      * cbn [loaded]. apply in_or_app. left. apply -> in_rev.
        apply (in_map (entry_of (disk w) (_skyMatrix (self w)) (analysisGrids (self w)) k g))
          in Hin.
        unfold entry_of in Hin at 1. rewrite Hso, Hst in Hin. exact Hin.
  - intros pre source state ext Hpre Hs Hst He Hne Ht Hk1 Hk3.
    now apply (source_and_state_other_extension rf pre source state ext).
  - intros H. apply source_and_state_short. unfold name_segments, Py.split.
    rewrite (split_go_no_double_dot_one _ _ H). cbn. lia.
Qed.

End NameClaims.

Section WriteClaims.
Context {C : Collaborators}.

Lemma write_commands (targetFolder projectName : string) (header_ : bool) (w : World) :
  _commands (self (snd (write targetFolder projectName header_ w)))
  = _commands (self w) ++ emitted (self w) targetFolder projectName header_ (disk w).
Proof. now rewrite write_run. Qed.

Lemma write_resultFiles (targetFolder projectName : string) (header_ : bool) (w : World) :
  _resultFiles (self (snd (write targetFolder projectName header_ w)))
  = _resultFiles (self w) ++ declared (self w) targetFolder projectName (disk w).
Proof. now rewrite write_run. Qed.

Lemma dc_part_no_reuse (r : Recipe) (p : Prepared) (args : BuilderArgs) (sts : list Stage) :
  reuseDaylightMtx r = false -> dc_part r p args sts = flat_map (dc_stage_commands args) sts.
Proof.
  intros H. unfold dc_part. apply flat_map_ext. intros st.
  unfold stage_part. now rewrite H.
Qed.

(** C2.  One call of [write] declares the result files of every
    daylight-coefficient stage, base case and each state of each window
    group, whatever is reused.  With [reuseDaylightMtx] set, a stage
    whose result files are on the disk the builders see contributes no
    command: the commands appended are the header, the sky part and the
    commands of the stages before and after it.  With [reuseDaylightMtx]
    unset the commands of every stage are appended, whatever is on the
    disk.  The script written is the command list, comments echoed. *)
Theorem write_reuse_policy (targetFolder projectName : string) (header_ : bool) (w : World) :
  let r := self w in
  let p := prepare r targetFolder projectName (disk w) in
  let args := builder_args r projectName p in
  let w' := snd (write targetFolder projectName header_ w) in
  fst (write targetFolder projectName header_ w) = inr (batch_path p)
  /\ _resultFiles (self w')
     = _resultFiles r
         ++ flat_map (fun st => map (OsPath.join (p_folder p)) (dc_stage_outputs args st))
              (all_stages r)
  /\ disk w' (batch_path p)
     = Some (Py.join newline ("@echo off" :: map echo_comment (_commands (self w'))))
  /\ (reuseDaylightMtx r = true ->
      forall before st after,
        all_stages r = before ++ st :: after ->
        outputs_exist p args st = true ->
        _commands (self w')
        = _commands r ++ header_part header_ p ++ sky_part r p
            ++ dc_part r p args before ++ dc_part r p args after
        /\ incl (map (OsPath.join (p_folder p)) (dc_stage_outputs args st))
             (_resultFiles (self w')))
  /\ (reuseDaylightMtx r = false ->
      _commands (self w')
      = _commands r ++ header_part header_ p ++ sky_part r p
          ++ flat_map (dc_stage_commands args) (all_stages r)).
Proof.
  intros r p args w'.
  assert (Hc : _commands (self w')
               = _commands r ++ header_part header_ p ++ sky_part r p
                   ++ dc_part r p args (all_stages r))
    by (subst w'; now rewrite write_commands).
  assert (Hf : _resultFiles (self w')
               = _resultFiles r ++ flat_map (stage_files p args) (all_stages r))
    by (subst w'; now rewrite write_resultFiles).
  split; [now rewrite write_run |].
  split; [exact Hf |].
  split.
  { subst w'. rewrite write_run. unfold after_write. cbn [snd disk self].
    unfold writeToFile. cbn [snd]. fold r p. now rewrite String.eqb_refl. }
  split.
  - intros Hr before st after Hst Hex. split.
    + rewrite Hc, Hst. unfold dc_part. rewrite flat_map_app. cbn [flat_map].
      unfold stage_part at 2. rewrite Hr, Hex. reflexivity.
    + rewrite Hf, Hst. intros f Hin. apply in_or_app. right.
      rewrite flat_map_app. apply in_or_app. right. cbn [flat_map].
      apply in_or_app. left. exact Hin.
  - intros Hr. rewrite Hc. now rewrite (dc_part_no_reuse r p args _ Hr).
Qed.

Lemma count_occ_flat_map_none {A : Type} (f : A -> list string) (l : list A) (c : string) :
  (forall a, In a l -> ~ In c (f a)) -> count_occ string_dec (flat_map f l) c = 0.
Proof.
  intros H. apply count_occ_not_In. intros Hin.
  apply in_flat_map in Hin as [a [Ha Hc]]. exact (H a Ha Hc).
Qed.

(** C3 (as the code has it).  One call of [write] asks the sky builder
    for its commands once, with reuse on, and appends what it returns
    between the header and the daylight-coefficient stages.  When the
    files of the sky matrix are on the disk the builders see, no sky
    command is appended; when they are not, the sky commands are appended
    once.  Neither case looks at [reuseDaylightMtx]: flipping the flag
    leaves the sky part as it is; nor at the window groups: the sky part
    is a function of the sky matrix and the prepared project alone.  At
    most once is per call: a command that is neither the header nor a
    command of a daylight-coefficient stage occurs among the commands a
    call appends as often as in one sky block, or not at all when the
    sky matrix is reused. *)
Theorem write_sky_stage_reused (targetFolder projectName : string) (header_ : bool)
        (w : World) :
  let r := self w in
  let p := prepare r targetFolder projectName (disk w) in
  let args := builder_args r projectName p in
  let w' := snd (write targetFolder projectName header_ w) in
  _commands (self w')
  = _commands r ++ header_part header_ p
      ++ fst (getCommandsSky (p_disk p) (p_folder p) (_skyMatrix r) true)
      ++ dc_part r p args (all_stages r)
  /\ (sky_exists r p = true ->
      _commands (self w')
      = _commands r ++ header_part header_ p ++ dc_part r p args (all_stages r))
  /\ (sky_exists r p = false ->
      _commands (self w')
      = _commands r ++ header_part header_ p
          ++ sky_stage_commands (p_folder p) (_skyMatrix r)
          ++ dc_part r p args (all_stages r))
  /\ (forall b,
         sky_part (with_reuseDaylightMtx b r)
           (prepare (with_reuseDaylightMtx b r) targetFolder projectName (disk w))
         = sky_part r p)
  /\ (forall r', _skyMatrix r' = _skyMatrix r -> sky_part r' p = sky_part r p)
  /\ (forall c,
         c <> header (p_folder p) ->
         (forall st, In st (all_stages r) -> ~ In c (dc_stage_commands args st)) ->
         count_occ string_dec (emitted r targetFolder projectName header_ (disk w)) c
         = if sky_exists r p then 0
           else count_occ string_dec (sky_stage_commands (p_folder p) (_skyMatrix r)) c).
Proof.
  intros r p args w'.
  assert (Hc : _commands (self w')
               = _commands r ++ header_part header_ p ++ sky_part r p
                   ++ dc_part r p args (all_stages r))
    by (subst w'; now rewrite write_commands).
  split; [exact Hc |]. split; [| split; [| split; [| split]]].
  - intros H. rewrite Hc. unfold sky_part. now rewrite H.
  - intros H. rewrite Hc. unfold sky_part. now rewrite H.
  - intros b. reflexivity.
  - intros r' H. unfold sky_part, sky_exists. now rewrite H.
  - intros c Hh Hdc. unfold emitted. fold p. fold args.
    rewrite !count_occ_app.
    assert (H1 : count_occ string_dec (header_part header_ p) c = 0).
    { unfold header_part. destruct header_; [| reflexivity].
      apply count_occ_not_In. intros [E | []]. now apply Hh. }
    assert (H2 : count_occ string_dec (dc_part r p args (all_stages r)) c = 0).
    { unfold dc_part. apply count_occ_flat_map_none. intros st Hst.
      unfold stage_part.
      destruct (reuseDaylightMtx r && outputs_exist p args st); [intros [] | now apply Hdc]. }
    rewrite H1, H2. unfold sky_part. destruct (sky_exists r p); cbn; lia.
Qed.

(** C9.  Each call of [write] appends to [_commands] and to
    [_resultFiles]: after a call the old lists are still there, followed
    by what the call emitted and declared, and after a second call by
    what the second call emitted and declared as well.  With the header
    asked for, a call makes the command list strictly longer. *)
Theorem write_accumulates (t1 n1 t2 n2 : string) (h1 h2 : bool) (w : World) :
  let w1 := snd (write t1 n1 h1 w) in
  let w2 := snd (write t2 n2 h2 w1) in
  _commands (self w1) = _commands (self w) ++ emitted (self w) t1 n1 h1 (disk w)
  /\ _resultFiles (self w1) = _resultFiles (self w) ++ declared (self w) t1 n1 (disk w)
  /\ _commands (self w2)
     = _commands (self w) ++ emitted (self w) t1 n1 h1 (disk w)
         ++ emitted (self w1) t2 n2 h2 (disk w1)
  /\ _resultFiles (self w2)
     = _resultFiles (self w) ++ declared (self w) t1 n1 (disk w)
         ++ declared (self w1) t2 n2 (disk w1)
  /\ List.length (_commands (self w))
     < List.length (_commands (self (snd (write t1 n1 true w)))).
Proof.
  intros w1 w2. subst w2 w1.
  rewrite !write_commands, !write_resultFiles, <- !app_assoc.
  repeat split.
  unfold emitted, header_part. rewrite !length_app. simpl. lia.
Qed.

End WriteClaims.

(** ** The primitives on examples *)

Example split_ex1 : Py.split "scene..default.x" ".." = ["scene"; "default.x"].
Proof. reflexivity. Qed.

Example split_ex2 : Py.split "a...b" ".." = ["a"; ".b"].
Proof. reflexivity. Qed.

Example split_ex3 : Py.split "" ".." = [""].
Proof. reflexivity. Qed.

Example split_ex4 : Py.split "...." ".." = [""; ""; ""].
Proof. reflexivity. Qed.

Example drop_last_ex :
  Py.drop_last 4 "abc" = "" /\ Py.drop_last 4 "a..b.ill" = "a..b".
Proof. split; reflexivity. Qed.

Example tail_ex :
  OsPath.split_tail "/tmp/p/result/a..b.ill" = "a..b.ill"
  /\ OsPath.split_tail "a/" = "" /\ OsPath.split_tail "x" = "x".
Proof. repeat split; reflexivity. Qed.

Example join_ex :
  OsPath.join "/p" "r/x.ill" = "/p/r/x.ill" /\ OsPath.join "/p/" "x" = "/p/x"
  /\ OsPath.join "/p" "/abs" = "/abs" /\ OsPath.join "" "x" = "x".
Proof. repeat split; reflexivity. Qed.

Example str_of_int_ex :
  Py.str_of_int 3 = "3" /\ Py.str_of_int (-12) = "-12" /\ Py.str_of_int 0 = "0".
Proof. repeat split; reflexivity. Qed.

(** Names at the edge: single dots are not separators; a name ending in
    a double dot before its extension gives an empty state; without an
    extension, or with a two-character one, the last four characters
    removed are part of the name. *)
Example source_and_state_ex :
  source_and_state "r/a.b.c.ill" = inl (IndexError "list index out of range")
  /\ source_and_state "r/scene...ill" = inr ("scene", "")
  /\ source_and_state "r/a..bcd" = inl (IndexError "list index out of range")
  /\ source_and_state "r/p..scene..default.ab" = inr ("scene", "defaul").
Proof. repeat split; reflexivity. Qed.

Example set_simulationType_ex :
  fst (set_simulationType (PyInt 3) (Demo.world Demo.recipe Demo.no_files))
  = inl (AssertionError "Simulation type should be between 0-2. Current value: 3")
  /\ fst (set_simulationType PyNone (Demo.world Demo.recipe Demo.no_files)) = inr tt.
Proof. split; reflexivity. Qed.

(** ** The claims on the concrete project *)

Section OnDemo.
#[local] Existing Instance Demo.collaborators.

Lemma results_offset_law_witness :
  exists gs',
    fst (results (Demo.ran [Demo.base_ill] Demo.five_lines)) = inr gs'
    /\ List.length gs' = 2
    /\ exists g',
        nth_error gs' 1 = Some g'
        /\ points g' = points Demo.grid2
        /\ In (mkResultEntry "scene" "default" [0; 1]%Z ["30 31"; "40 41"; "50 51"]) (loaded g')
        /\ offset_of [Demo.grid1; Demo.grid2] 1 = grid_len Demo.grid1.
Proof.
  destruct (results_offset_law (Demo.ran [Demo.base_ill] Demo.five_lines) eq_refl eq_refl)
    as [gs' [H1 [H2 H3]]].
  exists gs'. split; [exact H1 |]. split; [exact H2 |].
  destruct (H3 1 Demo.grid2 eq_refl) as [g' [Hg [Hp Hrows]]].
  exists g'. split; [exact Hg |]. split; [exact Hp |].
  destruct (Hrows Demo.base_ill (or_introl eq_refl)) as [Hin [_ [Hsecond _]]].
  split; [exact Hin | exact (Hsecond Demo.grid1 eq_refl eq_refl)].
Defined.

Lemma results_requires_calculated_witness :
  results (Demo.world Demo.recipe Demo.no_files)
  = (inl (AssertionError not_run_message), Demo.world Demo.recipe Demo.no_files)
  /\ exists w', results (Demo.ran [Demo.base_ill] Demo.five_lines)
                = (inr (analysisGrids (self w')), w')
                /\ w' = after_results (Demo.ran [Demo.base_ill] Demo.five_lines) [Demo.base_ill].
Proof.
  split.
  - apply (proj1 (results_requires_calculated (Demo.world Demo.recipe Demo.no_files))).
    reflexivity.
  - apply (proj2 (proj2 (results_requires_calculated
                           (Demo.ran [Demo.base_ill] Demo.five_lines))));
      reflexivity.
Defined.


Lemma write_reuse_policy_witness :
  (_commands (self (snd (write "/w" "p" true (Demo.world Demo.recipe Demo.base_done))))
   = ["cd /w/p/gridbased_daylightcoeff"; ":: sky matrix";
      "gendaymtx -m 1 sky/sky.wea > sky/skymtx.smx"]
       ++ flat_map (dc_stage_commands Demo.args) (group_stages [Demo.blinds; Demo.shades])
   /\ incl [Demo.base_ill]
        (_resultFiles (self (snd (write "/w" "p" true
                                    (Demo.world Demo.recipe Demo.base_done))))))
  /\ _commands (self (snd (write "/w" "p" false
                             (Demo.world Demo.recipe_no_reuse Demo.base_done))))
     = [":: sky matrix"; "gendaymtx -m 1 sky/sky.wea > sky/skymtx.smx"]
         ++ flat_map (dc_stage_commands Demo.args)
              (BaseCase :: group_stages [Demo.blinds; Demo.shades]).
Proof.
  split.
  - pose proof (write_reuse_policy "/w" "p" true (Demo.world Demo.recipe Demo.base_done))
      as H.
    cbv zeta in H. destruct H as [_ [_ [_ [H _]]]].
    exact (H eq_refl [] BaseCase (group_stages [Demo.blinds; Demo.shades]) eq_refl eq_refl).
  - pose proof (write_reuse_policy "/w" "p" false
                  (Demo.world Demo.recipe_no_reuse Demo.base_done)) as H.
    cbv zeta in H. destruct H as [_ [_ [_ [_ H]]]].
    exact (H eq_refl).
Defined.

Lemma write_sky_stage_reused_witness :
  _commands (self (snd (write "/w" "p" true (Demo.world Demo.recipe_no_reuse Demo.sky_done))))
  = ["cd /w/p/gridbased_daylightcoeff"]
      ++ flat_map (dc_stage_commands Demo.args)
           (BaseCase :: group_stages [Demo.blinds; Demo.shades])
  /\ _commands (self (snd (write "/w" "p" true (Demo.world Demo.recipe Demo.no_files))))
     = ["cd /w/p/gridbased_daylightcoeff"; ":: sky matrix";
        "gendaymtx -m 1 sky/sky.wea > sky/skymtx.smx"]
         ++ flat_map (dc_stage_commands Demo.args)
              (BaseCase :: group_stages [Demo.blinds; Demo.shades])
  /\ count_occ string_dec (emitted Demo.recipe "/w" "p" true Demo.no_files)
       "gendaymtx -m 1 sky/sky.wea > sky/skymtx.smx" = 1.
Proof.
  split; [| split].
  - pose proof (write_sky_stage_reused "/w" "p" true
                  (Demo.world Demo.recipe_no_reuse Demo.sky_done)) as H.
    cbv zeta in H. destruct H as [_ [H _]]. exact (H eq_refl).
  - pose proof (write_sky_stage_reused "/w" "p" true
                  (Demo.world Demo.recipe Demo.no_files)) as H.
    cbv zeta in H. destruct H as [_ [_ [H _]]]. exact (H eq_refl).
  - pose proof (write_sky_stage_reused "/w" "p" true
                  (Demo.world Demo.recipe Demo.no_files)) as H.
    cbv zeta in H. destruct H as [_ [_ [_ [_ [_ H]]]]].
    apply (H "gendaymtx -m 1 sky/sky.wea > sky/skymtx.smx").
    + discriminate.
    + intros st Hst Hin.
      cbn in Hst.
      repeat (destruct Hst as [<- | Hst];
              [destruct Hin as [E | [E | []]]; discriminate E |]).
      exact Hst.
Defined.

(** C3, as stated, fails: the sky matrix is not computed at most once
    per script.  Two calls of [write] on the same recipe, the sky matrix
    not on the disk, leave a script in which the command that generates
    it stands twice. *)
Lemma write_twice_sky_commands_twice :
  count_occ string_dec
    (Py.split
       (content_of
          (disk (snd (write "/w" "p" true
                        (snd (write "/w" "p" true
                                (Demo.world Demo.recipe Demo.no_files))))))
          "/w/p/gridbased_daylightcoeff/commands.bat")
       newline)
    "gendaymtx -m 1 sky/sky.wea > sky/skymtx.smx" = 2.
Proof. vm_compute. reflexivity. Qed.

Lemma results_malformed_name_witness :
  (source_and_state Demo.broken_ill = inl (IndexError "list index out of range")
   /\ results (Demo.ran [Demo.base_ill; Demo.broken_ill] Demo.five_lines)
      = (inl (IndexError "list index out of range"),
         after_results (Demo.ran [Demo.base_ill; Demo.broken_ill] Demo.five_lines)
           [Demo.base_ill]))
  /\ exists pre source state,
      name_segments Demo.base_ill = pre ++ [source; state]
      /\ source_and_state Demo.base_ill = inr (source, state).
Proof.
  split.
  - destruct (proj1 (results_malformed_name Demo.broken_ill)) as [H1 [_ H3]].
    + vm_compute. lia.
    + split; [exact H1 |].
      exact (H3 (Demo.ran [Demo.base_ill; Demo.broken_ill] Demo.five_lines)
                [Demo.base_ill] [] eq_refl eq_refl eq_refl).
  - apply (proj2 (results_malformed_name Demo.base_ill)). vm_compute. lia.
Defined.

Lemma results_surplus_lines_ignored_witness :
  exists gs',
    fst (results (Demo.ran [Demo.base_ill] Demo.seven_lines)) = inr gs'
    /\ exists g' rows,
        nth_error gs' 1 = Some g'
        /\ In (mkResultEntry "scene" "default" [0; 1]%Z rows) (loaded g')
        /\ List.length rows = 3.
Proof.
  destruct (results_surplus_lines_ignored (Demo.ran [Demo.base_ill] Demo.seven_lines)
              eq_refl eq_refl) as [gs' [H1 H2]].
  - intros rf [<- | []]. vm_compute. discriminate.
  - exists gs'. split; [exact H1 |].
    destruct (H2 1 Demo.grid2 eq_refl) as [g' [Hg Hrows]].
    destruct (Hrows Demo.base_ill (or_introl eq_refl)) as [rows [Hin [Hlen _]]].
    exists g', rows. split; [exact Hg |]. split; [exact Hin | exact Hlen].
Defined.

(** C7, as stated, fails: the file has seven data lines, the two grids
    have five points, and [results()] returns the grids, loaded from the
    first five lines, without raising. *)
Lemma results_shape_mismatch_not_raised :
  List.length (data_lines (content_of (disk (Demo.ran [Demo.base_ill] Demo.seven_lines))
                             Demo.base_ill)) = 7
  /\ total_len (analysisGrids (self (Demo.ran [Demo.base_ill] Demo.seven_lines))) = 5%Z
  /\ fst (results (Demo.ran [Demo.base_ill] Demo.seven_lines)) = inr Demo.grids_loaded.
Proof. repeat split. Qed.

Lemma source_and_state_from_name_witness :
  (name_segments Demo.base_ill = Py.split "p..scene..default" ".."
   /\ Py.join ".." (name_segments Demo.base_ill) = "p..scene..default")
  /\ source_and_state Demo.base_ill = inr ("scene", "default")
  /\ source_and_state Demo.base_json = inr ("scene", "default.")
  /\ (In ("loading restults for scene::default from " ++ Demo.base_ill)%string
         (stdout (snd (results (Demo.ran [Demo.base_ill] Demo.five_lines))))
      /\ exists g' rows,
          nth_error (analysisGrids
                       (self (snd (results (Demo.ran [Demo.base_ill] Demo.five_lines))))) 1
          = Some g'
          /\ In (mkResultEntry "scene" "default" [0; 1]%Z rows) (loaded g'))
  /\ source_and_state "/w/p/result/p..scene..default.ab" <> inr ("scene", "default")
  /\ source_and_state "/w/p/result/a.b.c.ill" = inl (IndexError "list index out of range").
Proof.
  split; [| split; [| split; [| split; [| split]]]].
  - apply (proj1 (source_and_state_from_name Demo.base_ill) _ ".ill"); reflexivity.
  - apply (proj1 (proj2 (proj2 (source_and_state_from_name Demo.base_ill)))
             ["p"] "scene" "default" "ill" eq_refl eq_refl eq_refl eq_refl).
    reflexivity.
  - apply (proj1 (proj2 (proj2 (source_and_state_from_name Demo.base_json)))
             ["p"] "scene" "default" "json" eq_refl eq_refl eq_refl eq_refl).
    reflexivity.
  - destruct (proj1 (proj2 (proj2 (proj2 (source_and_state_from_name Demo.base_ill))))
                (Demo.ran [Demo.base_ill] Demo.five_lines) "scene" "default"
                eq_refl eq_refl eq_refl (or_introl eq_refl)) as [_ [Hlog Hgrid]].
    split; [exact Hlog |]. exact (Hgrid 1 Demo.grid2 eq_refl).
  - apply (proj1 (proj2 (proj2 (proj2 (proj2
             (source_and_state_from_name "/w/p/result/p..scene..default.ab")))))
             ["p"] "scene" "default" "ab" eq_refl eq_refl eq_refl eq_refl).
    + discriminate.
    + reflexivity.
    + cbn. lia.
    + cbn. lia.
  - apply (proj2 (proj2 (proj2 (proj2 (proj2
             (source_and_state_from_name "/w/p/result/a.b.c.ill")))))).
    reflexivity.
Defined.

(** The scenario of the specification: two window groups with three and
    two states make six runs, and six daylight-coefficient stages. *)
Example totalRunsCount_demo :
  fst (totalRunsCount (Demo.world Demo.recipe Demo.no_files)) = inr 6%Z
  /\ List.length (all_stages Demo.recipe) = 6.
Proof. split; reflexivity. Qed.

(** Two calls of [write] on the same recipe declare every result file
    twice. *)
Example write_twice_demo :
  _resultFiles (self (snd (write "/w" "p" true
                             (snd (write "/w" "p" true
                                     (Demo.world Demo.recipe Demo.no_files))))))
  = declared Demo.recipe "/w" "p" Demo.no_files
      ++ declared Demo.recipe "/w" "p" Demo.no_files.
Proof. reflexivity. Qed.

(** The files [write] declares are named so that [results] finds their
    source and state. *)
Example declared_names_demo :
  map source_and_state (declared Demo.recipe "/w" "p" Demo.no_files)
  = [inr ("scene", "default"); inr ("blinds", "0"); inr ("blinds", "1");
     inr ("blinds", "2"); inr ("shades", "0"); inr ("shades", "1")].
Proof. reflexivity. Qed.

End OnDemo.

(** * More of the class *)

(** ** The simulation-type setter *)

Lemma set_simulationType_run (value : pyval) (w : World) :
  set_simulationType value w
  = match int_raises value with
    | Some e => (inl e, w)
    | None =>
        let v := int_or_zero value in
        if Z.leb 0 v && Z.leb v 2
        then if negb (Z.eqb v 1) || isClimateBased (_skyMatrix (self w))
             then (inr tt,
                   mkWorld (with_skyMatrix (set_skyType v (_skyMatrix (self w)))
                              (with_simType v (self w))) (disk w) (stdout w))
             else (inl (AssertionError
                          "The sky for radition analysis should be climate-based."), w)
        else (inl (AssertionError
                     ("Simulation type should be between 0-2. Current value: "
                        ++ Py.str_of_int v)%string), w)
    end.
Proof.
  destruct w as [r fs out]. unfold set_simulationType, int_raises, int_or_zero.
  assert (Hrest : forall v,
    (value0 <- ret v ;;
     assert_ (Z.leb 0 value0 && Z.leb value0 2)
       ("Simulation type should be between 0-2. Current value: "
          ++ Py.str_of_int value0)%string ;;
     (if Z.eqb value0 1
      then r0 <- get_self ;;
           assert_ (isClimateBased (_skyMatrix r0))
             "The sky for radition analysis should be climate-based."
      else ret tt) ;;
     modify_self (with_simType value0) ;;
     modify_self (fun r0 => with_skyMatrix (set_skyType value0 (_skyMatrix r0)) r0))
      (mkWorld r fs out)
    = if Z.leb 0 v && Z.leb v 2
      then if negb (Z.eqb v 1) || isClimateBased (_skyMatrix r)
           then (inr tt,
                 mkWorld (with_skyMatrix (set_skyType v (_skyMatrix r)) (with_simType v r))
                   fs out)
           else (inl (AssertionError
                        "The sky for radition analysis should be climate-based."),
                 mkWorld r fs out)
      else (inl (AssertionError
                   ("Simulation type should be between 0-2. Current value: "
                      ++ Py.str_of_int v)%string), mkWorld r fs out)).
  { intros v. rewrite bind_ret_l.
    unfold assert_ at 1. destruct (Z.leb 0 v && Z.leb v 2); [| reflexivity].
    rewrite bind_ret_l. destruct (Z.eqb v 1); cbn.
    - unfold bind, get_self, assert_. cbn.
      destruct (isClimateBased (_skyMatrix r)); reflexivity.
    - reflexivity. }
  destruct (py_int value) as [e | v]; cbn [try_except_TypeError self disk stdout].
  - destruct e; first [reflexivity | cbv zeta; apply Hrest].
  - cbv zeta. apply Hrest.
Qed.

(** X1.  A simulation type that [int] reads as less than 0 or more than 2
    fails on the range assertion, whose message ends with the value, and
    the recipe, the disk and the console stay as they were. *)
Theorem set_simulationType_out_of_range (w : World) (value : pyval) (v : Z) :
  py_int value = inr v -> (v < 0 \/ 2 < v)%Z ->
  set_simulationType value w
  = (inl (AssertionError
            ("Simulation type should be between 0-2. Current value: "
               ++ Py.str_of_int v)%string), w).
Proof.
  intros Hv Hr. rewrite set_simulationType_run. unfold int_raises, int_or_zero.
  rewrite Hv. cbv zeta.
  replace (Z.leb 0 v && Z.leb v 2) with false; [reflexivity |].
  symmetry. apply andb_false_iff. destruct Hr; [left | right]; apply Z.leb_gt; lia.
Qed.

Lemma set_simulationType_out_of_range_witness :
  set_simulationType (PyInt 3) (Demo.world Demo.recipe Demo.no_files)
  = (inl (AssertionError "Simulation type should be between 0-2. Current value: 3"),
     Demo.world Demo.recipe Demo.no_files).
Proof.
  apply (set_simulationType_out_of_range _ (PyInt 3) 3); [reflexivity | lia].
Defined.

(** X2.  [None] as simulation type is taken as 0: [int(None)] raises a
    [TypeError], the setter goes on with 0, never fails, and records 0 on
    the recipe and on the sky, as setting 0 does. *)
Theorem set_simulationType_None (w : World) :
  set_simulationType PyNone w = set_simulationType (PyInt 0) w
  /\ fst (set_simulationType PyNone w) = inr tt
  /\ _simType (self (snd (set_simulationType PyNone w))) = 0%Z
  /\ skyType (_skyMatrix (self (snd (set_simulationType PyNone w)))) = 0%Z.
Proof. rewrite !set_simulationType_run. cbn. repeat split. Qed.

(** X3.  The simulation-type setter does one of three things.  It fails
    on one of its two assertions and changes nothing.  Or [int(value)]
    raises an exception that is not a [TypeError] (a [ValueError] for a
    string that is not an integer literal): the setter does not catch it,
    it reaches the caller as it is, and nothing is changed.  Or the
    setter succeeds with a value between 0 and 2 and changes two things
    only: the type recorded on the recipe and the type recorded on its
    sky. *)
Theorem set_simulationType_atomic (w : World) (value : pyval) :
  (exists msg, set_simulationType value w = (inl (AssertionError msg), w))
  \/ (exists e, py_int value = inl e
                /\ (forall msg, e <> TypeError msg)
                /\ set_simulationType value w = (inl e, w))
  \/ (exists v, (0 <= v <= 2)%Z
                /\ set_simulationType value w
                   = (inr tt,
                      mkWorld (with_skyMatrix (set_skyType v (_skyMatrix (self w)))
                                 (with_simType v (self w))) (disk w) (stdout w))).
Proof.
  rewrite set_simulationType_run.
  destruct (int_raises value) as [e |] eqn:He.
  { right. left. exists e. unfold int_raises in He.
    destruct (py_int value) as [e' | v]; [| discriminate].
    destruct e'; try discriminate; injection He as <-;
      (split; [reflexivity | split; [intros msg0; discriminate | reflexivity]]). }
  cbv zeta.
  destruct (Z.leb 0 (int_or_zero value) && Z.leb (int_or_zero value) 2) eqn:Hr.
  - destruct (negb (Z.eqb (int_or_zero value) 1) || isClimateBased (_skyMatrix (self w))).
    + right. right. exists (int_or_zero value). split; [| reflexivity].
      apply andb_prop in Hr as [H1 H2]. apply Z.leb_le in H1, H2. lia.
    + left. eexists. reflexivity.
  - left. eexists. reflexivity.
Qed.

(** X4.  A recipe that is consistent (sky a matrix, type between 0 and 2
    and equal to the one on the sky, radiation only with a climate-based
    sky) is consistent after the simulation-type setter, whether the
    setter succeeds or fails. *)
Theorem set_simulationType_keeps_consistent (w : World) (value : pyval) :
  consistent (self w) = true ->
  consistent (self (snd (set_simulationType value w))) = true.
Proof.
  intros Hc. rewrite set_simulationType_run.
  destruct (int_raises value); [exact Hc |]. cbv zeta.
  destruct (Z.leb 0 (int_or_zero value) && Z.leb (int_or_zero value) 2) eqn:Hr;
    [| exact Hc].
  destruct (negb (Z.eqb (int_or_zero value) 1) || isClimateBased (_skyMatrix (self w)))
    eqn:Hk; [| exact Hc].
  unfold consistent in *. cbn.
  apply andb_prop in Hc as [Hc _]. apply andb_prop in Hc as [Hc _].
  apply andb_prop in Hc as [Hc _]. apply andb_prop in Hc as [Hp _].
  apply andb_prop in Hr as [H1 H2].
  rewrite Hp, H1, H2, Z.eqb_refl, Hk. reflexivity.
Qed.

Lemma set_simulationType_keeps_consistent_witness :
  consistent (self (snd (set_simulationType (PyInt 1)
                           (Demo.world Demo.recipe Demo.no_files)))) = true
  /\ consistent (self (snd (set_simulationType (PyInt 1)
                              (Demo.world Demo.recipe_not_climate Demo.no_files)))) = true.
Proof.
  split; apply set_simulationType_keeps_consistent; reflexivity.
Defined.

(** ** The sky setter *)

(** X5.  The sky setter refuses a point-in-time sky on its assertion and
    leaves the recipe as it was; any other sky replaces the recipe's sky,
    the getter returns it, and nothing else is changed. *)
Theorem set_skyMatrix_accepts_matrices (w : World) (newSky : SkyMatrix) :
  (isPointInTime newSky = true ->
   set_skyMatrix newSky w
   = (inl (AssertionError "Sky for daylight coefficient recipe must be a sky matrix."), w))
  /\ (isPointInTime newSky = false ->
      set_skyMatrix newSky w
      = (inr tt, mkWorld (with_skyMatrix newSky (self w)) (disk w) (stdout w))
      /\ fst (get_skyMatrix (snd (set_skyMatrix newSky w))) = inr newSky).
Proof.
  unfold set_skyMatrix, assert_. split; intros H; rewrite H; cbn.
  - reflexivity.
  - split; reflexivity.
Qed.

Lemma set_skyMatrix_accepts_matrices_witness :
  set_skyMatrix DemoFactory.point_in_time (Demo.world Demo.recipe Demo.no_files)
  = (inl (AssertionError "Sky for daylight coefficient recipe must be a sky matrix."),
     Demo.world Demo.recipe Demo.no_files)
  /\ fst (get_skyMatrix (snd (set_skyMatrix Demo.sky_not_climate
                                (Demo.world Demo.recipe Demo.no_files))))
     = inr Demo.sky_not_climate.
Proof.
  split.
  - apply (proj1 (set_skyMatrix_accepts_matrices _ DemoFactory.point_in_time)).
    reflexivity.
  - apply (proj2 (set_skyMatrix_accepts_matrices
                    (Demo.world Demo.recipe Demo.no_files) Demo.sky_not_climate)).
    reflexivity.
Defined.

(** X6.  The sky setter does not look at the simulation type.  On a
    recipe set to radiation (type 1), a sky matrix that is not
    climate-based is accepted: the recipe is then in radiation mode with
    a sky that is not climate-based, the sky keeps the type it came with,
    and the recipe is not consistent. *)
Theorem set_skyMatrix_skips_radiation_check (w : World) (newSky : SkyMatrix) :
  _simType (self w) = 1%Z ->
  isPointInTime newSky = false ->
  isClimateBased newSky = false ->
  fst (set_skyMatrix newSky w) = inr tt
  /\ _simType (self (snd (set_skyMatrix newSky w))) = 1%Z
  /\ isClimateBased (_skyMatrix (self (snd (set_skyMatrix newSky w)))) = false
  /\ skyType (_skyMatrix (self (snd (set_skyMatrix newSky w)))) = skyType newSky
  /\ consistent (self (snd (set_skyMatrix newSky w))) = false.
Proof.
  intros Ht Hp Hc.
  unfold set_skyMatrix, assert_. rewrite Hp. cbn.
  repeat split; try assumption.
  unfold consistent. cbn. rewrite Ht, Hc. cbn.
  now rewrite !andb_false_r.
Qed.

Lemma set_skyMatrix_skips_radiation_check_witness :
  fst (set_skyMatrix Demo.sky_not_climate
         (snd (set_simulationType (PyInt 1) (Demo.world Demo.recipe Demo.no_files))))
  = inr tt
  /\ consistent (self (snd (set_skyMatrix Demo.sky_not_climate
                              (snd (set_simulationType (PyInt 1)
                                      (Demo.world Demo.recipe Demo.no_files))))))
     = false.
Proof.
  destruct (set_skyMatrix_skips_radiation_check
              (snd (set_simulationType (PyInt 1) (Demo.world Demo.recipe Demo.no_files)))
              Demo.sky_not_climate eq_refl eq_refl eq_refl) as [H1 [_ [_ [_ H5]]]].
  split; [exact H1 | exact H5].
Defined.

(** ** The constructor *)

Lemma init_run (w : World) (skyMtx : SkyMatrix) (value : pyval)
      (par : option RfluxmtxParameters) (reuse : bool) :
  accepted skyMtx value = true ->
  __init__ skyMtx value par reuse w
  = (inr tt, mkWorld (initialised (self w) skyMtx value par reuse) (disk w) (stdout w)).
Proof.
  unfold accepted. intros H.
  apply andb_prop in H as [H Hk]. apply andb_prop in H as [H H2].
  apply andb_prop in H as [H H1]. apply andb_prop in H as [Hp Hi].
  destruct w as [r fs out].
  unfold __init__, set_skyMatrix, assert_, bind. rewrite Hp. cbn [negb].
  unfold ret, modify_self. cbn [self disk stdout].
  rewrite set_simulationType_run.
  destruct (int_raises value); [discriminate |].
  cbv zeta. rewrite H1, H2. cbn [andb].
  cbn [self _skyMatrix with_skyMatrix]. rewrite Hk.
  destruct par; reflexivity.
Qed.

(** X7.  When the sky is a matrix, the simulation type reads as 0, 1 or 2
    and radiation comes with a climate-based sky, the constructor
    succeeds.  The four attributes of the class are then what the
    arguments say, whatever the object held for them before: the sky is
    the one passed in with its recorded type overwritten by the
    simulation type, absent parameters are the default bundle, and the
    attributes of the base classes are untouched.  The new recipe is
    consistent. *)
Theorem init_accepted (w : World) (skyMtx : SkyMatrix) (value : pyval)
        (par : option RfluxmtxParameters) (reuse : bool) :
  accepted skyMtx value = true ->
  __init__ skyMtx value par reuse w
  = (inr tt,
     mkWorld (mkRecipe (set_skyType (int_or_zero value) skyMtx) (int_or_zero value)
                (parameters_or_default par) reuse
                (analysisGrids (self w)) (windowGroups (self w)) (_commands (self w))
                (_resultFiles (self w)) (_isCalculated (self w)))
       (disk w) (stdout w))
  /\ consistent (self (snd (__init__ skyMtx value par reuse w))) = true.
Proof.
  intros H. rewrite (init_run w skyMtx value par reuse H).
  split; [reflexivity |].
  unfold accepted in H. unfold consistent, initialised. cbn.
  apply andb_prop in H as [H Hk]. apply andb_prop in H as [H H2].
  apply andb_prop in H as [H H1]. apply andb_prop in H as [Hp _].
  now rewrite Hp, H1, H2, Z.eqb_refl, Hk.
Qed.

Lemma init_accepted_witness :
  __init__ Demo.sky (PyInt 1) None false (Demo.world Demo.recipe_not_climate Demo.no_files)
  = (inr tt,
     mkWorld (mkRecipe (set_skyType 1 Demo.sky) 1 Demo.parameters false
                [Demo.grid1; Demo.grid2] [] [] [] false) Demo.no_files [])
  /\ consistent (self (snd (__init__ Demo.sky (PyInt 1) None false
                              (Demo.world Demo.recipe_not_climate Demo.no_files)))) = true.
Proof.
  apply (init_accepted (Demo.world Demo.recipe_not_climate Demo.no_files)
           Demo.sky (PyInt 1) None false).
  reflexivity.
Defined.

(** X8.  When one of those conditions fails the constructor fails.  The
    sky is checked first: a point-in-time sky fails with the sky setter's
    message whatever the simulation type is, and nothing is assigned.
    With a sky matrix, the constructor fails after the sky has been
    assigned, with the error of the simulation-type setter: one of its
    two assertions, or the exception [int] raised on the simulation type
    when that is not a [TypeError] (a [ValueError] for a string that is
    not an integer literal), which the setter does not catch. *)
Theorem init_rejected (w : World) (skyMtx : SkyMatrix) (value : pyval)
        (par : option RfluxmtxParameters) (reuse : bool) :
  accepted skyMtx value = false ->
  (isPointInTime skyMtx = true ->
   __init__ skyMtx value par reuse w
   = (inl (AssertionError "Sky for daylight coefficient recipe must be a sky matrix."), w))
  /\ (isPointInTime skyMtx = false ->
      exists e,
        __init__ skyMtx value par reuse w
        = (inl e, mkWorld (with_skyMatrix skyMtx (self w)) (disk w) (stdout w))
        /\ fst (set_simulationType value
                  (mkWorld (with_skyMatrix skyMtx (self w)) (disk w) (stdout w)))
           = inl e
        /\ ((exists msg, e = AssertionError msg)
            \/ (py_int value = inl e /\ forall msg, e <> TypeError msg))).
Proof.
  intros H. split; intros Hp.
  - unfold __init__, set_skyMatrix, assert_. rewrite Hp. reflexivity.
  - unfold accepted in H. rewrite Hp in H. cbn [negb andb] in H.
    destruct w as [r fs out].
    unfold __init__, set_skyMatrix, assert_, bind. rewrite Hp. cbn [negb].
    unfold ret, modify_self. cbn [self disk stdout].
    rewrite !set_simulationType_run.
    destruct (int_raises value) as [e |] eqn:He.
    { exists e. split; [reflexivity |]. split; [reflexivity |]. right.
      unfold int_raises in He.
      destruct (py_int value) as [e' | v]; [| discriminate].
      destruct e'; try discriminate; injection He as <-;
        (split; [reflexivity | intros msg0; discriminate]). }
    cbv zeta. cbn [self _skyMatrix with_skyMatrix]. cbn [andb] in H.
    destruct (Z.leb 0 (int_or_zero value) && Z.leb (int_or_zero value) 2) eqn:Hr.
    + cbn [andb] in H. rewrite H. eexists. split; [reflexivity |].
      split; [reflexivity |]. left. eexists. reflexivity.
    + eexists. split; [reflexivity |]. split; [reflexivity |]. left. eexists. reflexivity.
Qed.

Lemma init_rejected_witness :
  __init__ DemoFactory.point_in_time (PyInt 7) None true
    (Demo.world Demo.recipe Demo.no_files)
  = (inl (AssertionError "Sky for daylight coefficient recipe must be a sky matrix."),
     Demo.world Demo.recipe Demo.no_files)
  /\ exists e,
      __init__ Demo.sky (py_str_invalid "abc") None true
        (Demo.world Demo.recipe_not_climate Demo.no_files)
      = (inl e, mkWorld (with_skyMatrix Demo.sky Demo.recipe_not_climate) Demo.no_files [])
      /\ fst (set_simulationType (py_str_invalid "abc")
                (mkWorld (with_skyMatrix Demo.sky Demo.recipe_not_climate)
                   Demo.no_files []))
         = inl e
      /\ ((exists msg, e = AssertionError msg)
          \/ (py_int (py_str_invalid "abc") = inl e /\ forall msg, e <> TypeError msg)).
Proof.
  split.
  - apply (proj1 (init_rejected (Demo.world Demo.recipe Demo.no_files)
                    DemoFactory.point_in_time (PyInt 7) None true eq_refl)).
    reflexivity.
  - apply (proj2 (init_rejected (Demo.world Demo.recipe_not_climate Demo.no_files)
                    Demo.sky (py_str_invalid "abc") None true eq_refl)).
    reflexivity.
Defined.

(** A string that is not an integer literal: the [ValueError] of [int]
    passes through the setter and through the constructor. *)
Example set_simulationType_str_ex :
  set_simulationType (py_str_invalid "abc") (Demo.world Demo.recipe Demo.no_files)
  = (inl (OtherError "ValueError" "invalid literal for int() with base 10: 'abc'"),
     Demo.world Demo.recipe Demo.no_files)
  /\ fst (__init__ Demo.sky (py_str_invalid "abc") None true
            (Demo.world Demo.recipe Demo.no_files))
     = inl (OtherError "ValueError" "invalid literal for int() with base 10: 'abc'")
  /\ fst (set_simulationType (PyObject (inr 2%Z)) (Demo.world Demo.recipe Demo.no_files))
     = inr tt.
Proof. repeat split. Qed.

(** ** [skyDensity] *)

Lemma to_int_not_nil (n : Z) :
  Z.to_int n <> Decimal.Pos Decimal.Nil /\ Z.to_int n <> Decimal.Neg Decimal.Nil.
Proof.
  destruct n as [| p | p]; cbn; split; try discriminate;
    intros H; injection H as H;
    pose proof (DecimalPos.Unsigned.to_of (Pos.to_uint p)) as Hn;
    rewrite H in Hn; cbn in Hn;
    pose proof (DecimalPos.Unsigned.of_to p) as Ho; rewrite H in Ho; discriminate.
Qed.

Lemma str_of_int_inj (n m : Z) : Py.str_of_int n = Py.str_of_int m -> n = m.
Proof.
  unfold Py.str_of_int. intros H.
  apply DecimalZ.to_int_inj.
  destruct (to_int_not_nil n) as [Hn1 Hn2]. destruct (to_int_not_nil m) as [Hm1 Hm2].
  pose proof (NilZero.isi _ Hn1 Hn2) as E1. pose proof (NilZero.isi _ Hm1 Hm2) as E2.
  rewrite H in E1. rewrite E1 in E2. now injection E2.
Qed.

(** X9.  The [skyDensity] property is the letter r followed by the
    density in decimal, it changes nothing, and two recipes with the same
    [skyDensity] string have skies of the same density. *)
Theorem skyDensity_determines_density (w1 w2 : World) :
  get_skyDensity w1
  = (inr ("r" ++ Py.str_of_int (skyDensity (_skyMatrix (self w1))))%string, w1)
  /\ (fst (get_skyDensity w1) = fst (get_skyDensity w2) ->
      skyDensity (_skyMatrix (self w1)) = skyDensity (_skyMatrix (self w2))).
Proof.
  split; [reflexivity |].
  unfold get_skyDensity, bind, get_self, ret. cbn. intros H.
  injection H as H. now apply str_of_int_inj.
Qed.

Lemma skyDensity_determines_density_witness :
  get_skyDensity (Demo.world Demo.recipe Demo.no_files)
  = (inr "r1", Demo.world Demo.recipe Demo.no_files)
  /\ skyDensity (_skyMatrix (self (Demo.world Demo.recipe Demo.no_files)))
     = skyDensity (_skyMatrix (self (Demo.world Demo.recipe_not_climate Demo.base_done))).
Proof.
  destruct (skyDensity_determines_density (Demo.world Demo.recipe Demo.no_files)
              (Demo.world Demo.recipe_not_climate Demo.base_done)) as [H1 H2].
  split; [exact H1 | apply H2; reflexivity].
Defined.

(** ** [totalRunsCount] *)

(** X10.  [totalRunsCount] does not depend on the order of the window
    groups: two recipes whose window groups are a permutation of each
    other have the same count. *)
Theorem totalRunsCount_permutation (r1 r2 : Recipe) :
  Permutation (windowGroups r1) (windowGroups r2) ->
  totalRunsCount_of r1 = totalRunsCount_of r2.
Proof.
  unfold totalRunsCount_of. rewrite !py_sum_fold_right. intros H. f_equal.
  induction H as [| x l l' _ IH | x y l | l l' l'' _ IH1 _ IH2]; simpl; lia.
Qed.

Lemma totalRunsCount_permutation_witness :
  totalRunsCount_of Demo.recipe
  = totalRunsCount_of (mkRecipe Demo.sky 0 Demo.parameters true [] [Demo.shades; Demo.blinds]
                         [] [] false).
Proof.
  apply totalRunsCount_permutation. apply perm_swap.
Defined.

(** X11.  When no window group has a negative state count,
    [totalRunsCount] is at least 1, and at least one more than the state
    count of any single window group. *)
Theorem totalRunsCount_at_least_one (r : Recipe) :
  (forall wg, In wg (windowGroups r) -> (0 <= stateCount wg)%Z) ->
  (1 <= totalRunsCount_of r)%Z
  /\ forall wg, In wg (windowGroups r) -> (stateCount wg + 1 <= totalRunsCount_of r)%Z.
Proof.
  unfold totalRunsCount_of. rewrite py_sum_fold_right.
  induction (windowGroups r) as [|x l IH]; intros H; simpl.
  - split; [lia | intros wg []].
  - destruct IH as [IH1 IH2]; [intros wg Hin; apply H; now right |].
    pose proof (H x (or_introl eq_refl)) as Hx.
    split; [lia |]. intros wg [<- | Hin]; [lia | specialize (IH2 wg Hin); lia].
Qed.

Lemma totalRunsCount_at_least_one_witness :
  (1 <= totalRunsCount_of Demo.recipe)%Z
  /\ forall wg, In wg (windowGroups Demo.recipe) ->
                (stateCount wg + 1 <= totalRunsCount_of Demo.recipe)%Z.
Proof.
  apply totalRunsCount_at_least_one.
  intros wg [<- | [<- | []]]; cbn; lia.
Defined.

(** ** [write] *)

Lemma echo_comment_not_comment (c : string) : Py.take 2 (echo_comment c) <> "::".
Proof.
  unfold echo_comment. destruct (String.eqb (Py.take 2 c) "::") eqn:E.
  - cbn. discriminate.
  - now apply String.eqb_neq.
Qed.

Lemma split_go_no_newline (p rest cur : string) :
  no_newline p = true ->
  Py.split_go newline (p ++ rest) cur 0 = Py.split_go newline rest (cur ++ p) 0.
Proof.
  revert cur. induction p as [|c p IH]; intros cur H.
  - cbn. now rewrite str_app_nil_r.
  - cbn [no_newline] in H. apply andb_prop in H as [Hc Hp].
    cbn [String.append Py.split_go]. unfold newline at 1. cbn [String.prefix].
    destruct (ascii_dec (ascii_of_nat 10) c) as [<- | _].
    + rewrite Ascii.eqb_refl in Hc. discriminate.
    + rewrite (IH _ Hp), str_app_assoc. reflexivity.
Qed.

Lemma split_go_newline (rest cur : string) :
  Py.split_go newline (newline ++ rest) cur 0 = cur :: Py.split_go newline rest "" 0.
Proof.
  unfold newline at 2. cbn [String.append Py.split_go].
  unfold newline at 1. cbn [String.prefix].
  destruct (ascii_dec (ascii_of_nat 10) (ascii_of_nat 10)) as [_ | n]; [| now elim n].
  destruct rest; reflexivity.
Qed.

(** Lines without a newline, joined by newlines and split again, are the
    lines. *)
Lemma split_join_newline (x : string) (l : list string) :
  Forall (fun line => no_newline line = true) (x :: l) ->
  Py.split (Py.join newline (x :: l)) newline = x :: l.
Proof.
  unfold Py.split. revert x. induction l as [|y l IH]; intros x H.
  - inversion H as [| ? ? Hx _]; subst. cbn [Py.join String.concat].
    rewrite <- (str_app_nil_r x) at 1. rewrite split_go_no_newline by exact Hx.
    reflexivity.
  - inversion H as [| ? ? Hx Hl]; subst.
    change (Py.join newline (x :: y :: l))
      with (x ++ newline ++ Py.join newline (y :: l))%string.
    rewrite split_go_no_newline by exact Hx. rewrite split_go_newline.
    cbn [String.append]. f_equal. now apply IH.
Qed.

Lemma echo_comment_no_newline (c : string) :
  no_newline c = true -> no_newline (echo_comment c) = true.
Proof.
  intros H. unfold echo_comment. destruct (String.eqb (Py.take 2 c) "::"); [| exact H].
  cbn. exact H.
Qed.

Section WriteMore.
Context {C : Collaborators}.

(** X12.  When no command the recipe holds or the call emits contains a
    newline, the lines of the script [write] leaves in [commands.bat]
    are: [@echo off], then every command the recipe held before the
    call, then the commands of this call, each comment ([::]) turned into
    an [echo]; and no line of the script starts with [::]. *)
Theorem write_script_lines (targetFolder projectName : string) (header_ : bool) (w : World) :
  (forall c, In c (_commands (self w)
                     ++ emitted (self w) targetFolder projectName header_ (disk w)) ->
             no_newline c = true) ->
  exists content,
    disk (snd (write targetFolder projectName header_ w))
      (batch_path (prepare (self w) targetFolder projectName (disk w)))
    = Some content
    /\ Py.split content newline
       = "@echo off"
           :: map echo_comment (_commands (self w))
           ++ map echo_comment
                (emitted (self w) targetFolder projectName header_ (disk w))
    /\ Forall (fun line => Py.take 2 line <> "::") (Py.split content newline).
Proof.
  intros Hnl.
  assert (Hsplit :
    Py.split
      (Py.join newline
         ("@echo off"
            :: map echo_comment
                 (_commands (self w)
                    ++ emitted (self w) targetFolder projectName header_ (disk w))))
      newline
    = "@echo off"
        :: map echo_comment (_commands (self w))
        ++ map echo_comment (emitted (self w) targetFolder projectName header_ (disk w))).
  { rewrite split_join_newline; [now rewrite map_app |].
    constructor; [reflexivity |].
    apply Forall_forall. intros line Hin.
    apply in_map_iff in Hin as [c [<- Hc]]. apply echo_comment_no_newline, Hnl, Hc. }
  eexists. split; [| split].
  - rewrite write_run. unfold after_write, writeToFile. cbn [snd disk self].
    rewrite String.eqb_refl. reflexivity.
  - exact Hsplit.
  - rewrite Hsplit. constructor; [cbn; discriminate |].
    rewrite <- map_app. apply Forall_forall. intros line Hin.
    apply in_map_iff in Hin as [c [<- _]]. apply echo_comment_not_comment.
Qed.

(** X13.  [write] changes two attributes of the recipe only, the command
    list and the list of result files: the sky, the simulation type, the
    parameters, the reuse flag, the grids, the window groups and the
    calculated flag are as before, nothing is printed, and a consistent
    recipe stays consistent. *)
Theorem write_frame (targetFolder projectName : string) (header_ : bool) (w : World) :
  with_resultFiles [] (with_commands [] (self (snd (write targetFolder projectName header_ w))))
  = with_resultFiles [] (with_commands [] (self w))
  /\ stdout (snd (write targetFolder projectName header_ w)) = stdout w
  /\ consistent (self (snd (write targetFolder projectName header_ w)))
     = consistent (self w).
Proof. rewrite write_run. repeat split. Qed.

(** X14.  [write] does not mark the recipe as calculated: on a recipe
    that has not been run, [results()] called after [write] fails on its
    opening assertion and loads nothing. *)
Theorem write_then_results_not_run (targetFolder projectName : string) (header_ : bool)
        (w : World) :
  _isCalculated (self w) = false ->
  results (snd (write targetFolder projectName header_ w))
  = (inl (AssertionError not_run_message), snd (write targetFolder projectName header_ w)).
Proof.
  intros H. apply results_not_run. rewrite write_run. exact H.
Qed.

End WriteMore.

(** ** Names of result files *)

Lemma tail_go_app (a b cur : string) :
  OsPath.tail_go (a ++ b) cur = OsPath.tail_go b (OsPath.tail_go a cur).
Proof.
  revert cur. induction a as [|c a IH]; intros cur; cbn; [reflexivity |].
  destruct (Ascii.eqb c OsPath.sep); apply IH.
Qed.

Lemma tail_go_ends_sep (a : string) :
  Py.endswith_char a OsPath.sep = true -> forall cur, OsPath.tail_go a cur = EmptyString.
Proof.
  induction a as [|c a IH]; intros H cur; [discriminate |].
  destruct a as [|c' a].
  - cbn in H. cbn. now rewrite H.
  - cbn [OsPath.tail_go]. destruct (Ascii.eqb c OsPath.sep); now apply IH.
Qed.

Lemma split_tail_join (a b : string) :
  OsPath.split_tail (OsPath.join a b) = OsPath.split_tail b.
Proof.
  unfold OsPath.split_tail, OsPath.join.
  destruct (Py.startswith b (String OsPath.sep EmptyString)); [reflexivity |].
  destruct (String.eqb a EmptyString) eqn:Ea.
  - apply String.eqb_eq in Ea. subst a. reflexivity.
  - cbn [orb]. destruct (Py.endswith_char a OsPath.sep) eqn:Es.
    + rewrite tail_go_app. now rewrite (tail_go_ends_sep a Es).
    + rewrite tail_go_app. cbn [OsPath.tail_go]. now rewrite Ascii.eqb_refl.
Qed.

(** X15.  The source and state [results] reads from a result file do not
    depend on the folder: for a file declared by [write] as
    [os.path.join(projectFolder, result)] they are those of [result]
    alone, whatever the project folder is. *)
Theorem source_and_state_ignores_folder (projectFolder result : string) :
  source_and_state (OsPath.join projectFolder result) = source_and_state result
  /\ name_segments (OsPath.join projectFolder result) = name_segments result.
Proof.
  unfold source_and_state, name_segments. now rewrite split_tail_join.
Qed.

Lemma take_length (n : nat) (s : string) : String.length (Py.take n s) <= n.
Proof.
  unfold Py.take. revert s. induction n as [|n IH]; intros s.
  - destruct s; cbn; lia.
  - destruct s as [|c s]; cbn; [lia |]. specialize (IH s). lia.
Qed.

Lemma prefix_dd (c : ascii) (s : string) :
  String.prefix ".." (String c s) = Ascii.eqb c "." && starts_dot s.
Proof.
  cbn [String.prefix]. destruct (ascii_dec "." c) as [<- | Hn].
  - cbn [Ascii.eqb Bool.eqb andb]. destruct s as [|c' s]; [reflexivity |].
    cbn [starts_dot String.prefix]. destruct (ascii_dec "." c') as [<- | Hn'].
    + now destruct s.
    + destruct (Ascii.eqb_spec c' "."); [now subst c' | reflexivity].
  - destruct (Ascii.eqb_spec c "."); [now subst c | reflexivity].
Qed.

Lemma split_short (s : string) :
  String.length s < 2 -> List.length (Py.split s "..") = 1.
Proof.
  intros H. destruct s as [|c [|c' s]]; [reflexivity | | cbn in H; lia].
  unfold Py.split. cbn [Py.split_go]. rewrite prefix_dd. cbn [starts_dot].
  now rewrite andb_false_r.
Qed.

(** X16.  A result file whose base name has fewer than six characters
    never gives a source and state: after the last four characters are
    removed there is no room for a double dot, and the index raises. *)
Theorem source_and_state_short_name (rf : string) :
  String.length (OsPath.split_tail rf) < 6 ->
  source_and_state rf = inl (IndexError "list index out of range").
Proof.
  intros H. apply source_and_state_short. unfold name_segments.
  rewrite split_short; [lia |].
  unfold Py.drop_last.
  pose proof (take_length (String.length (OsPath.split_tail rf) - 4) (OsPath.split_tail rf)).
  lia.
Qed.

Lemma source_and_state_short_name_witness :
  source_and_state "/w/p/result/a.ill" = inl (IndexError "list index out of range").
Proof.
  apply source_and_state_short_name. cbn. lia.
Defined.

Lemma has_double_dot_cons (a : ascii) (s : string) :
  has_double_dot (String a s) = (Ascii.eqb a "." && starts_dot s) || has_double_dot s.
Proof. cbn [has_double_dot]. now rewrite prefix_dd. Qed.

Lemma has_double_dot_snoc (cur : string) (c : ascii) :
  has_double_dot (cur ++ String c EmptyString)
  = has_double_dot cur || (Py.endswith_char cur "." && Ascii.eqb c ".").
Proof.
  induction cur as [|a cur IH].
  - cbn [String.append]. rewrite has_double_dot_cons. cbn.
    now rewrite andb_false_r.
  - cbn [String.append]. rewrite !has_double_dot_cons, IH.
    destruct cur as [|b cur].
    + cbn. destruct (Ascii.eqb a "."), (Ascii.eqb c "."); reflexivity.
    + cbn [String.append starts_dot Py.endswith_char]. now rewrite orb_assoc.
Qed.

Lemma split_go_no_double_dot (n : nat) :
  forall s cur,
    String.length s <= n ->
    has_double_dot cur = false ->
    Py.endswith_char cur "." && starts_dot s = false ->
    Forall (fun seg => has_double_dot seg = false) (Py.split_go ".." s cur 0).
Proof.
  induction n as [|n IH]; intros s cur Hn Hc Hi.
  - destruct s; [| cbn in Hn; lia]. cbn. now constructor.
  - destruct s as [|c s]; [cbn; now constructor |].
    cbn [Py.split_go]. rewrite prefix_dd.
    destruct (Ascii.eqb c ".") eqn:Ec; cbn [andb].
    + destruct s as [|c' s]; cbn [starts_dot].
      * apply (IH EmptyString); [cbn; lia | |].
        -- rewrite has_double_dot_snoc, Hc, Ec. cbn [starts_dot] in Hi.
           rewrite Ec in Hi. now rewrite Hi.
        -- cbn. now rewrite andb_false_r.
      * destruct (Ascii.eqb c' ".") eqn:Ec'.
        -- constructor; [exact Hc |]. cbn [String.length Nat.sub Py.split_go].
           apply IH; [cbn in Hn; lia | reflexivity | reflexivity].
        -- apply IH; [cbn in Hn; cbn; lia | |].
           ++ rewrite has_double_dot_snoc, Hc, Ec. cbn [starts_dot] in Hi.
              rewrite Ec in Hi. now rewrite Hi.
           ++ cbn [starts_dot]. rewrite Ec'. now rewrite andb_false_r.
    + apply IH; [cbn in Hn; lia | |].
      * rewrite has_double_dot_snoc, Hc, Ec. now rewrite andb_false_r.
      * assert (He : Py.endswith_char (cur ++ String c EmptyString) "." = false).
        { clear - Ec. induction cur as [|a cur IHc]; cbn; [exact Ec |].
          destruct cur; cbn in *; exact IHc. }
        now rewrite He.
Qed.

(** X17.  The source and the state [results] reads from a file name
    never contain a double dot, and neither does any other segment of
    the name. *)
Theorem source_and_state_no_double_dot (rf source state : string) :
  source_and_state rf = inr (source, state) ->
  has_double_dot source = false /\ has_double_dot state = false
  /\ Forall (fun seg => has_double_dot seg = false) (name_segments rf).
Proof.
  intros H.
  assert (Hall : Forall (fun seg => has_double_dot seg = false) (name_segments rf)).
  { unfold name_segments, Py.split.
    apply (split_go_no_double_dot _ _ _ (Nat.le_refl _)); reflexivity. }
  destruct (Nat.le_gt_cases 2 (List.length (name_segments rf))) as [H2 | H2].
  - rewrite (source_and_state_ok _ H2) in H. injection H as <- <-.
    rewrite Forall_forall in Hall.
    split; [| split; [| now apply Forall_forall]];
      apply Hall; unfold source_of, state_of; fold (name_segments rf);
      apply nth_In; lia.
  - rewrite (source_and_state_short _ H2) in H. discriminate.
Qed.

Lemma source_and_state_no_double_dot_witness :
  has_double_dot "a" = false /\ has_double_dot ".b" = false
  /\ Forall (fun seg => has_double_dot seg = false) (name_segments "r/a...b.ill").
Proof.
  apply (source_and_state_no_double_dot "r/a...b.ill"). reflexivity.
Defined.

(** ** [results]: what it leaves alone *)

Lemma results_frame_refl (w : World) : results_frame w w.
Proof.
  unfold results_frame.
  split; [reflexivity |]. split; [reflexivity |]. split; [reflexivity |].
  split; [reflexivity |]. exists []. now rewrite app_nil_r.
Qed.

Lemma results_frame_trans (w1 w2 w3 : World) :
  results_frame w1 w2 -> results_frame w2 w3 -> results_frame w1 w3.
Proof.
  unfold results_frame.
  intros [Hd [Hs [Hn [Hp [m1 Ho]]]]] [Hd' [Hs' [Hn' [Hp' [m2 Ho']]]]].
  split; [congruence |]. split; [congruence |]. split; [congruence |].
  split; [congruence |].
  exists (m1 ++ m2). rewrite Ho', Ho. now rewrite app_assoc.
Qed.

Lemma map_replace_nth {A B : Type} (f : A -> B) (l : list A) :
  forall i x y, nth_error l i = Some x -> f y = f x ->
                map f (replace_nth i y l) = map f l.
Proof.
  induction l as [|a l IH]; intros [|i] x y H E; try discriminate; cbn in *.
  - injection H as ->. now rewrite E.
  - f_equal. now apply (IH i x).
Qed.

Section ResultsMore.
Context {C : Collaborators}.

Lemma results_grids_frame (rf source state : string) (counts : list nat) :
  forall startLine w,
    results_frame w (snd (results_grids rf source state counts startLine w)).
Proof.
  induction counts as [|count counts IH]; intros startLine w.
  - apply results_frame_refl.
  - cbn [results_grids].
    assert (Hstart : exists x,
      (match count with
       | O => ret startLine
       | S prev => g <- grid_at prev ;; ret (startLine + grid_len g)%Z
       end) w = (x, w)).
    { destruct count as [|prev]; [eexists; reflexivity |].
      unfold grid_at, bind, get_self, lift, Py.index. cbn.
      destruct (nth_error (analysisGrids (self w)) prev); eexists; reflexivity. }
    destruct Hstart as [[e | sl] Hstart].
    { rewrite (bind_fail _ _ _ _ _ Hstart). apply results_frame_refl. }
    rewrite (bind_ok _ _ _ _ _ Hstart).
    unfold grid_at at 1. unfold bind at 1, bind at 1, get_self at 1, lift, Py.index.
    cbn [self].
    destruct (nth_error (analysisGrids (self w)) count) as [g |] eqn:Hg;
      [| apply results_frame_refl].
    cbn [ret]. unfold bind at 1, get_self at 1. cbn [self].
    unfold bind at 1, setValuesFromFile, bind at 1, get_disk.
    destruct (disk w rf) as [content |]; [| apply results_frame_refl].
    cbn [ret]. unfold bind at 1, store_grid, modify_self.
    eapply results_frame_trans; [| apply IH].
    unfold results_frame. cbn [self disk stdout analysisGrids with_analysisGrids].
    split; [reflexivity |].
    split; [destruct (self w); reflexivity |].
    split; [destruct (self w); cbn in *;
            now apply (map_replace_nth grid_name _ count g) |].
    split; [destruct (self w); cbn in *;
            now apply (map_replace_nth points _ count g) |].
    exists []. now rewrite app_nil_r.
Qed.

Lemma results_file_frame (rf : string) (w : World) :
  results_frame w (snd (results_file rf w)).
Proof.
  unfold results_file. destruct (source_and_state rf) as [e | [source state]].
  - apply results_frame_refl.
  - cbn [lift]. rewrite bind_ret_l. unfold bind at 1, print.
    unfold bind at 1, get_self. cbn [self].
    eapply results_frame_trans; [| apply results_grids_frame].
    unfold results_frame. cbn.
    split; [reflexivity |]. split; [reflexivity |]. split; [reflexivity |].
    split; [reflexivity |]. eexists. reflexivity.
Qed.

Lemma for_each_results_frame (rfs : list string) :
  forall w, results_frame w (snd (for_each rfs results_file w)).
Proof.
  induction rfs as [|rf rfs IH]; intros w.
  - apply results_frame_refl.
  - cbn [for_each]. unfold bind.
    pose proof (results_file_frame rf w) as H.
    destruct (results_file rf w) as [[e | []] w1]; cbn [snd] in *; [exact H |].
    eapply results_frame_trans; [exact H | apply IH].
Qed.

(** X18.  Whether it returns or raises, [results()] leaves the disk, the
    commands, the result files, the sky, the simulation type, the
    parameters and the flags of the recipe as they were; the recipe has
    the same grids, with the same names and the same points, in the same
    order; the console only grows. *)
Theorem results_keeps_frame (w : World) :
  disk (snd (results w)) = disk w
  /\ with_analysisGrids [] (self (snd (results w))) = with_analysisGrids [] (self w)
  /\ map grid_name (analysisGrids (self (snd (results w))))
     = map grid_name (analysisGrids (self w))
  /\ map points (analysisGrids (self (snd (results w))))
     = map points (analysisGrids (self w))
  /\ exists more, stdout (snd (results w)) = stdout w ++ more.
Proof.
  change (results_frame w (snd (results w))).
  unfold results. unfold bind at 1, get_self at 1. cbn [self].
  unfold assert_. destruct (_isCalculated (self w)); [| apply results_frame_refl].
  rewrite bind_ret_l. unfold bind at 1.
  pose proof (for_each_results_frame (_resultFiles (self w)) w) as H.
  destruct (for_each (_resultFiles (self w)) results_file w) as [[e | []] w1];
    cbn [snd] in *; exact H.
Qed.

Lemma results_file_no_grids (rf : string) (w : World) :
  analysisGrids (self w) = [] ->
  2 <= List.length (name_segments rf) ->
  results_file rf w = (inr tt, mkWorld (self w) (disk w) (stdout w ++ [log_line rf])).
Proof.
  intros Hg Hs. unfold results_file. rewrite (source_and_state_ok _ Hs).
  cbn [lift]. rewrite bind_ret_l. unfold bind at 1, print.
  unfold bind at 1, get_self. cbn [self]. rewrite Hg. reflexivity.
Qed.

(** X19.  With no analysis grid, [results()] on a recipe that has been
    run opens no file: whatever is or is not on the disk, if every result
    file name has its two segments it returns the empty list, having
    printed one line per result file, in order, and changed nothing
    else. *)
Theorem results_no_grids (w : World) :
  _isCalculated (self w) = true ->
  analysisGrids (self w) = [] ->
  Forall (fun rf => 2 <= List.length (name_segments rf)) (_resultFiles (self w)) ->
  results w
  = (inr [], mkWorld (self w) (disk w) (stdout w ++ map log_line (_resultFiles (self w)))).
Proof.
  intros Hc Hg Hf. unfold results. unfold bind at 1, get_self at 1. cbn [self].
  rewrite Hc. unfold assert_. rewrite bind_ret_l.
  assert (Hloop : forall rfs out,
             Forall (fun rf => 2 <= List.length (name_segments rf)) rfs ->
             for_each rfs results_file (mkWorld (self w) (disk w) out)
             = (inr tt, mkWorld (self w) (disk w) (out ++ map log_line rfs))).
  { induction rfs as [|rf rfs IH]; intros out HF.
    - cbn. now rewrite app_nil_r.
    - inversion HF as [| ? ? H1 H2]; subst. cbn [for_each].
      rewrite (bind_ok _ _ _ _ _
                 (results_file_no_grids rf (mkWorld (self w) (disk w) out) Hg H1)).
      cbn [self disk stdout]. rewrite (IH _ H2), <- app_assoc. reflexivity. }
  destruct w as [r fs out]. cbn [self disk stdout] in *.
  rewrite (bind_ok _ _ _ _ _ (Hloop _ out Hf)).
  unfold bind, get_self, ret. cbn. now rewrite Hg.
Qed.

End ResultsMore.

(** ** The class methods *)

Lemma lower_app (a b : string) :
  PyStr.lower (a ++ b) = (PyStr.lower a ++ PyStr.lower b)%string.
Proof. induction a as [|c a IH]; cbn; [reflexivity | now rewrite IH]. Qed.

Lemma endswith_app (a b : string) : PyStr.endswith (a ++ b) b = true.
Proof.
  induction a as [|c a IH].
  - destruct b; cbn; now rewrite ?String.eqb_refl, ?Ascii.eqb_refl.
  - cbn [String.append PyStr.endswith]. rewrite IH. apply orb_true_r.
Qed.

Lemma split_ws_char (c : ascii) :
  PyStr.split_ws (String c EmptyString)
  = if PyStr.is_space c then [] else [String c EmptyString].
Proof. unfold PyStr.split_ws. cbn. now destruct (PyStr.is_space c). Qed.

Lemma chars_length (s : string) : List.length (PyStr.chars s) = String.length s.
Proof. induction s as [|c s IH]; cbn; [reflexivity | now rewrite IH]. Qed.

Section ClassMethodFacts.
Context {F : Factories}.

(** X20.  [fromWeatherFilePointsAndVectors] checks the extension of the
    weather file first, without regard to case.  A name that does not end
    in [.epw] once lowered fails on the assertion, whose message starts
    with the name, before any sky or grid is made.  A name whose last
    four characters are [.epw] in any mix of cases passes, and the
    result is the constructor's, on the sky made from the file and the
    grids made from the points. *)
Theorem fromWeatherFile_extension (epwFile : string) (pointGroups : Groups)
        (vectorGroups : option Groups) (density : Z) (value : pyval)
        (par : option RfluxmtxParameters) (reuse : bool) :
  (PyStr.endswith (PyStr.lower epwFile) ".epw" = false ->
   fromWeatherFilePointsAndVectors epwFile pointGroups vectorGroups density value par reuse
   = inl (AssertionError (epwFile ++ " is not a an EnergyPlus weather file.")%string))
  /\ (forall stem ext,
         epwFile = (stem ++ ext)%string -> PyStr.lower ext = ".epw" ->
         fromWeatherFilePointsAndVectors epwFile pointGroups vectorGroups density value
           par reuse
         = cls (fromEpwFile epwFile density)
             (analysisGridsFromPointsAndVectors pointGroups vectorGroups) value par reuse).
Proof.
  unfold fromWeatherFilePointsAndVectors. split.
  - intros H. now rewrite H.
  - intros stem ext -> Hext. rewrite lower_app, Hext, endswith_app. reflexivity.
Qed.

(** X21.  [fromPointsFile] reads the first two lines of the points file
    one character at a time.  Each point group it passes on is empty
    (for a whitespace character) or holds that one character, so no
    group has three coordinates; there is one group per character of the
    first line, newline included; and every vector group is empty, one
    per character of the second line. *)
Theorem fromPointsFile_reads_characters (fs : FS) (epwFile pointsFile content : string)
        (density : Z) (value : pyval) (par : option RfluxmtxParameters) (reuse : bool) :
  fs pointsFile = Some content ->
  exists pointGroups vectorGroups,
    fromPointsFile fs epwFile pointsFile density value par reuse
    = match fromWeatherFilePointsAndVectors epwFile pointGroups (Some vectorGroups)
              density value par reuse with
      | inl e => inl (Raised e)
      | inr r => inr r
      end
    /\ List.length pointGroups = String.length (fst (PyStr.readline content))
    /\ Forall (fun g => g = [] \/ exists c, g = [String c EmptyString]
                                          /\ PyStr.is_space c = false) pointGroups
    /\ List.length vectorGroups
       = String.length (fst (PyStr.readline (snd (PyStr.readline content))))
    /\ Forall (fun g => g = []) vectorGroups.
Proof.
  intros H. exists (read_pointGroups content), (read_vectorGroups content).
  unfold fromPointsFile. rewrite H. split; [reflexivity |].
  unfold read_pointGroups, read_vectorGroups.
  rewrite !length_map, !chars_length.
  split; [reflexivity |]. split; [| split; [reflexivity |]].
  - generalize (fst (PyStr.readline content)). intros line.
    induction line as [|c line IH]; cbn [PyStr.chars map]; constructor; [| exact IH].
    rewrite split_ws_char. destruct (PyStr.is_space c) eqn:E; [now left |].
    right. exists c. now split.
  - generalize (fst (PyStr.readline (snd (PyStr.readline content)))). intros line.
    induction line as [|c line IH]; cbn [PyStr.chars map]; constructor; [| exact IH].
    rewrite split_ws_char. now destruct (PyStr.is_space c).
Qed.

(** X22.  The errors of [fromPointsFile], the points file read as a
    Python 2 [str] as in X21: a points file that cannot be opened gives a
    [ValueError] naming the file, whatever the weather file is called;
    with a points file that can be read (reading a Python 2 [str]
    character by character raises nothing), a weather file without the
    [.epw] extension gives the assertion error of
    [fromWeatherFilePointsAndVectors], not a [ValueError]. *)
Theorem fromPointsFile_errors (fs : FS) (epwFile pointsFile : string)
        (density : Z) (value : pyval) (par : option RfluxmtxParameters) (reuse : bool) :
  (fs pointsFile = None ->
   fromPointsFile fs epwFile pointsFile density value par reuse
   = inl (ValueError ("Couldn't import points from " ++ pointsFile)%string))
  /\ (isfile fs pointsFile = true ->
      PyStr.endswith (PyStr.lower epwFile) ".epw" = false ->
      fromPointsFile fs epwFile pointsFile density value par reuse
      = inl (Raised (AssertionError
                       (epwFile ++ " is not a an EnergyPlus weather file.")%string))).
Proof.
  unfold fromPointsFile, isfile. split.
  - intros H. now rewrite H.
  - intros H He. destruct (fs pointsFile); [| discriminate].
    unfold fromWeatherFilePointsAndVectors. now rewrite He.
Qed.

End ClassMethodFacts.

(** ** The further properties on the concrete project *)

Section OnDemoMore.
#[local] Existing Instance Demo.collaborators.
#[local] Existing Instance DemoFactory.factories.

Lemma write_then_results_not_run_witness :
  results (snd (write "/w" "p" true (Demo.world Demo.recipe Demo.no_files)))
  = (inl (AssertionError not_run_message),
     snd (write "/w" "p" true (Demo.world Demo.recipe Demo.no_files))).
Proof.
  apply write_then_results_not_run. reflexivity.
Defined.

Lemma write_script_lines_witness :
  exists content,
    disk (snd (write "/w" "p" true (Demo.world Demo.recipe Demo.base_done)))
      "/w/p/gridbased_daylightcoeff/commands.bat" = Some content
    /\ Py.split content newline
       = "@echo off"
           :: map echo_comment (emitted Demo.recipe "/w" "p" true Demo.base_done)
    /\ Forall (fun line => Py.take 2 line <> "::") (Py.split content newline).
Proof.
  destruct (write_script_lines "/w" "p" true (Demo.world Demo.recipe Demo.base_done))
    as [content [H1 [H2 H3]]].
  - intros c Hin.
    apply (proj1 (forallb_forall no_newline
                    (_commands (self (Demo.world Demo.recipe Demo.base_done))
                       ++ emitted (self (Demo.world Demo.recipe Demo.base_done))
                            "/w" "p" true (disk (Demo.world Demo.recipe Demo.base_done)))));
      [reflexivity | exact Hin].
  - exists content. split; [exact H1 |]. split; [exact H2 | exact H3].
Defined.

(** A command that holds a newline followed by a comment leaves a line of
    the script that starts with [::]: the commands are echoed one by one,
    not line by line. *)
Example echo_comment_newline_ex :
  Py.split (Py.join newline
              ["@echo off"; echo_comment ("cd x" ++ newline ++ ":: hidden")%string])
    newline
  = ["@echo off"; "cd x"; ":: hidden"].
Proof. reflexivity. Qed.

Lemma results_no_grids_witness :
  results (mkWorld (mkRecipe Demo.sky 0 Demo.parameters true [] [] [] [Demo.base_ill] true)
             Demo.no_files [])
  = (inr [],
     mkWorld (mkRecipe Demo.sky 0 Demo.parameters true [] [] [] [Demo.base_ill] true)
       Demo.no_files [log_line Demo.base_ill]).
Proof.
  apply (results_no_grids
           (mkWorld (mkRecipe Demo.sky 0 Demo.parameters true [] [] [] [Demo.base_ill] true)
              Demo.no_files [])); [reflexivity | reflexivity |].
  constructor; [vm_compute; lia | constructor].
Defined.

Lemma fromWeatherFile_extension_witness :
  fromWeatherFilePointsAndVectors "w.txt" [] None 1 (PyInt 0) None true
  = inl (AssertionError "w.txt is not a an EnergyPlus weather file.")
  /\ fromWeatherFilePointsAndVectors "C:/W.EPW" [] None 1 (PyInt 0) None true
     = cls (fromEpwFile "C:/W.EPW" 1) (analysisGridsFromPointsAndVectors [] None)
         (PyInt 0) None true.
Proof.
  split.
  - apply (proj1 (fromWeatherFile_extension "w.txt" [] None 1 (PyInt 0) None true)).
    reflexivity.
  - apply (proj2 (fromWeatherFile_extension "C:/W.EPW" [] None 1 (PyInt 0) None true)
             "C:/W" ".EPW"); reflexivity.
Defined.

Lemma fromPointsFile_reads_characters_witness :
  exists pointGroups vectorGroups,
    fromPointsFile DemoFactory.points_disk "w.epw" "grid.pts" 1 (PyInt 0) None true
    = match fromWeatherFilePointsAndVectors "w.epw" pointGroups (Some vectorGroups)
              1 (PyInt 0) None true with
      | inl e => inl (Raised e)
      | inr r => inr r
      end
    /\ List.length pointGroups = 12
    /\ Forall (fun g => g = []) vectorGroups.
Proof.
  destruct (fromPointsFile_reads_characters DemoFactory.points_disk "w.epw" "grid.pts"
              _ 1 (PyInt 0) None true eq_refl)
    as [pg [vg [H1 [H2 [_ [_ H5]]]]]].
  exists pg, vg. split; [exact H1 |]. split; [exact H2 | exact H5].
Defined.

Lemma fromPointsFile_errors_witness :
  fromPointsFile DemoFactory.points_disk "w.txt" "nogrid.pts" 1 (PyInt 0) None true
  = inl (ValueError "Couldn't import points from nogrid.pts")
  /\ fromPointsFile DemoFactory.points_disk "w.txt" "grid.pts" 1 (PyInt 0) None true
     = inl (Raised (AssertionError "w.txt is not a an EnergyPlus weather file.")).
Proof.
  split.
  - apply (proj1 (fromPointsFile_errors DemoFactory.points_disk "w.txt" "nogrid.pts"
                    1 (PyInt 0) None true)).
    reflexivity.
  - apply (proj2 (fromPointsFile_errors DemoFactory.points_disk "w.txt" "grid.pts"
                    1 (PyInt 0) None true)); reflexivity.
Defined.

(** The points file of the example, as [fromPointsFile] reads it. *)
Example read_groups_demo :
  read_pointGroups "1 2 3 0 0 1"
  = [["1"]; []; ["2"]; []; ["3"]; []; ["0"]; []; ["0"]; []; ["1"]]
  /\ PyStr.split_ws "  a bc   d " = ["a"; "bc"; "d"]
  /\ PyStr.lower "C:/X/Weather.EPW" = "c:/x/weather.epw".
Proof. repeat split; reflexivity. Qed.

End OnDemoMore.
